(** * LiveDisplay RGB calibration (drivers/video/msm/mdss/mdss_livedisplay.c)

    A shallow embedding of the driver's entry points as functions on an
    explicit machine state, and the properties of the update pipeline:
    validation in [mdss_livedisplay_set_rgb], coalescing of requests in
    [mdss_livedisplay_update], the deferred [mdss_livedisplay_worker] and the
    command built by [mdss_livedisplay_update_pcc]. *)

From Stdlib Require Import ZArith List String Ascii Bool Lia.
Import ListNotations.
Local Open Scope Z_scope.

(** ** Machine integers and error codes *)

(** A value stored in a [uint32_t]. *)
Definition wrap32 (z : Z) : Z := z mod 2 ^ 32.

(** A [uint32_t] read back as an [int] (what [%d] prints). *)
Definition as_int32 (z : Z) : Z :=
  if wrap32 z <? 2 ^ 31 then wrap32 z else wrap32 z - 2 ^ 32.

(** errno values of include/asm-generic/errno-base.h. *)
Definition ENOMEM : Z := 12.
Definition ENODEV : Z := 19.
Definition EINVAL : Z := 22.

(** ARM page size, the capacity of a sysfs buffer. *)
Definition PAGE_SIZE : Z := 4096.

(** The model holds one panel, hence one object of each structure type: a
    pointer is [NULL] or designates that object. *)
Inductive pointer : Type := NULL | PTR.

Definition is_null (p : pointer) : bool :=
  match p with NULL => true | PTR => false end.

(** ** Structures *)

(** Modelled from the spec: [struct mdp_pcc_coeff] is declared in msm_mdp.h,
    which is not among the sources.  One row of the polynomial colour
    correction: a constant, the three linear terms ([r], [g], [b]) and the
    cross-channel (higher order) terms. *)
Module mdp_pcc_coeff.
Record t : Type := mk {
  c : Z; r : Z; g : Z; b : Z;
  rr : Z; gg : Z; bb : Z; rg : Z; gb : Z; rb : Z;
  rgb_0 : Z; rgb_1 : Z
}.
Definition zero : t := mk 0 0 0 0 0 0 0 0 0 0 0 0.
Definition set_r (x : t) (v : Z) : t :=
  mk (c x) v (g x) (b x) (rr x) (gg x) (bb x) (rg x) (gb x) (rb x) (rgb_0 x) (rgb_1 x).
Definition set_g (x : t) (v : Z) : t :=
  mk (c x) (r x) v (b x) (rr x) (gg x) (bb x) (rg x) (gb x) (rb x) (rgb_0 x) (rgb_1 x).
Definition set_b (x : t) (v : Z) : t :=
  mk (c x) (r x) (g x) v (rr x) (gg x) (bb x) (rg x) (gb x) (rb x) (rgb_0 x) (rgb_1 x).
End mdp_pcc_coeff.

(** Modelled from the spec: [struct mdp_pcc_cfg_data] of msm_mdp.h: the target
    block, the operation flags and one coefficient row per output channel. *)
Module mdp_pcc_cfg_data.
Record t : Type := mk {
  block : Z;
  ops : Z;
  r : mdp_pcc_coeff.t;
  g : mdp_pcc_coeff.t;
  b : mdp_pcc_coeff.t
}.
Definition zero : t := mk 0 0 mdp_pcc_coeff.zero mdp_pcc_coeff.zero mdp_pcc_coeff.zero.
Definition set_block (x : t) (v : Z) : t := mk v (ops x) (r x) (g x) (b x).
Definition set_ops (x : t) (v : Z) : t := mk (block x) v (r x) (g x) (b x).
Definition set_r (x : t) (v : mdp_pcc_coeff.t) : t := mk (block x) (ops x) v (g x) (b x).
Definition set_g (x : t) (v : mdp_pcc_coeff.t) : t := mk (block x) (ops x) (r x) v (b x).
Definition set_b (x : t) (v : mdp_pcc_coeff.t) : t := mk (block x) (ops x) (r x) (g x) v.
End mdp_pcc_cfg_data.

(** [struct work_struct]: only the WORK_STRUCT_PENDING bit matters here. *)
Record work_struct : Type := mk_work { pending : bool }.

(** [struct mdss_livedisplay_ctx] (mdss_livedisplay.h): the fields this file
    touches.  [lock] is [true] while the mutex is held; [mfd] and [wq] are
    pointers. *)
Record mdss_livedisplay_ctx : Type := mk_ctx {
  r : Z;
  g : Z;
  b : Z;
  mfd : pointer;
  lock : bool;
  update_work : work_struct;
  wq : pointer;
  updated : Z
}.

Definition set_r (x : mdss_livedisplay_ctx) (v : Z) : mdss_livedisplay_ctx :=
  mk_ctx v (g x) (b x) (mfd x) (lock x) (update_work x) (wq x) (updated x).
Definition set_g (x : mdss_livedisplay_ctx) (v : Z) : mdss_livedisplay_ctx :=
  mk_ctx (r x) v (b x) (mfd x) (lock x) (update_work x) (wq x) (updated x).
Definition set_b (x : mdss_livedisplay_ctx) (v : Z) : mdss_livedisplay_ctx :=
  mk_ctx (r x) (g x) v (mfd x) (lock x) (update_work x) (wq x) (updated x).
Definition set_mfd (x : mdss_livedisplay_ctx) (v : pointer) : mdss_livedisplay_ctx :=
  mk_ctx (r x) (g x) (b x) v (lock x) (update_work x) (wq x) (updated x).
Definition set_lock (x : mdss_livedisplay_ctx) (v : bool) : mdss_livedisplay_ctx :=
  mk_ctx (r x) (g x) (b x) (mfd x) v (update_work x) (wq x) (updated x).
Definition set_update_work (x : mdss_livedisplay_ctx) (v : work_struct) : mdss_livedisplay_ctx :=
  mk_ctx (r x) (g x) (b x) (mfd x) (lock x) v (wq x) (updated x).
Definition set_updated (x : mdss_livedisplay_ctx) (v : Z) : mdss_livedisplay_ctx :=
  mk_ctx (r x) (g x) (b x) (mfd x) (lock x) (update_work x) (wq x) v.

(** [struct mdss_dsi_ctrl_pdata]: only
    [panel_data.panel_info.panel_power_state] is read. *)
Record mdss_dsi_ctrl_pdata : Type := mk_ctrl { panel_power_state : Z }.

(** ** The platform

    What the driver takes from headers and from the display pipeline, none of
    which is among the sources: the flag and block constants of msm_mdp.h,
    [MODE_RGB] of mdss_livedisplay.h, the power-state predicate of
    mdss_panel.h, and [mdss_mdp_user_pcc_config], whose result code depends
    on the command and on the pipeline's own state [mdp_state].  The
    constants are 32-bit values: storing one in a [uint32_t] field keeps
    it. *)
Class Platform : Type := {
  MDP_LOGICAL_BLOCK_DISP_0 : Z;
  MDP_PP_OPS_ENABLE : Z;
  MDP_PP_OPS_DISABLE : Z;
  MDP_PP_OPS_WRITE : Z;
  MODE_RGB : Z;
  mdss_panel_is_power_on_interactive : Z -> bool;
  mdp_state : Type;
  mdss_mdp_user_pcc_config : mdp_state -> mdp_pcc_cfg_data.t -> Z * mdp_state
}.

(** A sample platform, with the customary values of msm_mdp.h and
    mdss_panel.h; its pipeline state is the script of result codes its next
    calls return (0 once exhausted).  It instantiates the examples below. *)
Definition msm8974 : Platform := {|
  MDP_LOGICAL_BLOCK_DISP_0 := 16;
  MDP_PP_OPS_ENABLE := 1;
  MDP_PP_OPS_DISABLE := 8;
  MDP_PP_OPS_WRITE := 4;
  MODE_RGB := 32;
  mdss_panel_is_power_on_interactive := fun s => s =? 1;
  mdp_state := list Z;
  mdss_mdp_user_pcc_config := fun st _ =>
    match st with [] => (0, []) | rc :: st' => (rc, st') end
|}.

(** ** Text: the kernel's [sscanf] and [scnprintf] for the formats used

    Modelled from the spec: lib/vsprintf.c and lib/kstrtox.c are not among
    the sources.  The attribute text is "up to three whitespace-separated
    integers" read with ["%d %d %d"] and written with ["%d %d %d\n"]; the
    functions below follow the kernel's [vsscanf], [simple_strtol] and
    [vsnprintf] for exactly these two formats. *)

Definition isdigit (ch : ascii) : bool :=
  let n := nat_of_ascii ch in (48 <=? n)%nat && (n <=? 57)%nat.

(** lib/ctype.c: tab to carriage return, space, and no-break space. *)
Definition isspace (ch : ascii) : bool :=
  let n := nat_of_ascii ch in
  ((9 <=? n)%nat && (n <=? 13)%nat) || (n =? 32)%nat || (n =? 160)%nat.

Definition digit_val (ch : ascii) : Z := Z.of_nat (nat_of_ascii ch) - 48.

Definition digit_char (d : Z) : ascii := ascii_of_nat (Z.to_nat (48 + d)).

(** The C string held in a buffer: the bytes before the first NUL. *)
Fixpoint c_string (buf : string) : string :=
  match buf with
  | EmptyString => EmptyString
  | String ch rest =>
      if (nat_of_ascii ch =? 0)%nat then EmptyString else String ch (c_string rest)
  end.

Fixpoint skip_spaces (str : string) : string :=
  match str with
  | String ch rest => if isspace ch then skip_spaces rest else str
  | EmptyString => str
  end.

(** [_parse_integer] in base 10: accumulates the leading digits and returns
    the value with the rest of the text. *)
Fixpoint parse_integer (acc : Z) (str : string) : Z * string :=
  match str with
  | String ch rest =>
      if isdigit ch then parse_integer (acc * 10 + digit_val ch) rest else (acc, str)
  | EmptyString => (acc, str)
  end.

Definition simple_strtoul (str : string) : Z * string := parse_integer 0 str.

(** [*str] and [str + 1]; the end of the text reads as NUL. *)
Definition peek (str : string) : ascii :=
  match str with String ch _ => ch | EmptyString => zero end.

Definition advance (str : string) : string :=
  match str with String _ rest => rest | EmptyString => EmptyString end.

Definition simple_strtol (str : string) : Z * string :=
  if (peek str =? "-")%char
  then let (v, next) := simple_strtoul (advance str) in (- v, next)
  else simple_strtoul str.

(** One [%d] conversion of [vsscanf]: [None] when the loop stops before
    converting (text exhausted, or no digit after the optional sign),
    otherwise the value as stored through the [int *] and the text left. *)
Definition scan_d (str : string) : option (Z * string) :=
  match str with
  | EmptyString => None
  | _ =>
      let str := skip_spaces str in
      let digit := peek str in
      let digit := if (digit =? "-")%char then peek (advance str) else digit in
      if isdigit digit
      then let (v, next) := simple_strtol str in Some (wrap32 v, next)
      else None
  end.

(** [sscanf(buf, "%d %d %d", &r, &g, &b)] on [uint32_t] variables holding
    [r0], [g0], [b0]: the number of conversions made and the variables
    afterwards.  A conversion that is not made leaves its variable alone. *)
Definition sscanf_d_d_d (buf : string) (r0 g0 b0 : Z) : Z * (Z * Z * Z) :=
  match scan_d (c_string buf) with
  | None => (0, (r0, g0, b0))
  | Some (v1, s1) =>
      match scan_d s1 with
      | None => (1, (v1, g0, b0))
      | Some (v2, s2) =>
          match scan_d s2 with
          | None => (2, (v1, v2, b0))
          | Some (v3, _) => (3, (v1, v2, v3))
          end
      end
  end.

(** The decimal digits of [n >= 0] written in front of [tail] ([number] of
    vsprintf.c); [fuel] bounds the number of digits. *)
Fixpoint put_dec (fuel : nat) (n : Z) (tail : string) : string :=
  match fuel with
  | O => tail
  | S fuel' =>
      let tail' := String (digit_char (n mod 10)) tail in
      if n <? 10 then tail' else put_dec fuel' (n / 10) tail'
  end.

(** [%d] applied to a [uint32_t] argument: it is read as an [int]; ten
    digits are enough for 32 bits. *)
Definition fmt_d (v : Z) (tail : string) : string :=
  let i := as_int32 v in
  if i <? 0 then String "-"%char (put_dec 10 (- i) tail) else put_dec 10 i tail.

Definition strlen (s : string) : Z := Z.of_nat (String.length s).

Fixpoint truncate (n : nat) (s : string) : string :=
  match n, s with
  | S n', String ch rest => String ch (truncate n' rest)
  | _, _ => EmptyString
  end.

(** [scnprintf(buf, size, "%d %d %d\n", r, g, b)]: at most [size - 1]
    characters are written, and their number is returned. *)
Definition scnprintf_d_d_d_nl (size : Z) (vr vg vb : Z) : Z * string :=
  let out :=
    fmt_d vr (String " "%char (fmt_d vg (String " "%char
      (fmt_d vb (String (ascii_of_nat 10) EmptyString))))) in
  let written := truncate (Z.to_nat (size - 1)) out in
  (strlen written, written).

(** The text ["r g b"], as user space writes it. *)
Definition rgb_text (vr vg vb : Z) : string :=
  fmt_d vr (String " "%char (fmt_d vg (String " "%char (fmt_d vb EmptyString)))).

(** ** The machine state and the driver *)

Section LiveDisplay.

Context {P : Platform}.

(** One framebuffer device with its panel.  [index] is [mfd->index];
    [ctrl] is what [get_ctrl(mfd)] resolves to ([None] for NULL);
    [livedisplay] is [panel_info->livedisplay], the context [get_ctx(mfd)]
    returns ([None] for NULL); [pcc_cfg] is the static command buffer of
    [mdss_livedisplay_update_pcc]; [mdp] is the display pipeline.  Two fields
    record what happened: [pcc_calls], the commands submitted to
    [mdss_mdp_user_pcc_config] in order, and [warnings], the number of
    [WARN_ON] conditions that fired. *)
Record world : Type := mk_world {
  index : Z;
  ctrl : option mdss_dsi_ctrl_pdata;
  livedisplay : option mdss_livedisplay_ctx;
  pcc_cfg : mdp_pcc_cfg_data.t;
  mdp : mdp_state;
  pcc_calls : list mdp_pcc_cfg_data.t;
  warnings : nat
}.

Definition set_ctrl (w : world) (v : option mdss_dsi_ctrl_pdata) : world :=
  mk_world (index w) v (livedisplay w) (pcc_cfg w) (mdp w) (pcc_calls w) (warnings w).
Definition set_livedisplay (w : world) (v : option mdss_livedisplay_ctx) : world :=
  mk_world (index w) (ctrl w) v (pcc_cfg w) (mdp w) (pcc_calls w) (warnings w).
Definition set_pcc_cfg (w : world) (v : mdp_pcc_cfg_data.t) : world :=
  mk_world (index w) (ctrl w) (livedisplay w) v (mdp w) (pcc_calls w) (warnings w).

(** The outcome of running driver code: it returns, it dereferences NULL
    ([Oops]), or it waits for a mutex that is held ([Blocks]). *)
Inductive outcome (A : Type) : Type :=
| Returns (a : A) (w : world)
| Oops
| Blocks.
Arguments Returns {A} a w.
Arguments Oops {A}.
Arguments Blocks {A}.

Definition M (A : Type) : Type := world -> outcome A.

Definition ret {A : Type} (a : A) : M A := fun w => Returns a w.

Definition bind {A B : Type} (m : M A) (k : A -> M B) : M B :=
  fun w =>
    match m w with
    | Returns a w' => k a w'
    | Oops => Oops
    | Blocks => Blocks
    end.

Notation "x <- m ;; k" := (bind m (fun x => k))
  (at level 61, m at next level, right associativity).
Notation "m ;; k" := (bind m (fun _ => k))
  (at level 61, right associativity).

Definition oops {A : Type} : M A := fun _ => Oops.

(** [mlc->field] read through the pointer [mlc]. *)
Definition load {A : Type} (mlc : pointer) (field : mdss_livedisplay_ctx -> A) : M A :=
  fun w =>
    match mlc, livedisplay w with
    | PTR, Some x => Returns (field x) w
    | _, _ => Oops
    end.

(** [mlc->field = v], as the update [upd] of the structure. *)
Definition store (mlc : pointer) (upd : mdss_livedisplay_ctx -> mdss_livedisplay_ctx) : M unit :=
  fun w =>
    match mlc, livedisplay w with
    | PTR, Some x => Returns tt (set_livedisplay w (Some (upd x)))
    | _, _ => Oops
    end.

Definition mutex_lock (mlc : pointer) : M unit :=
  held <- load mlc lock ;;
  if held then (fun _ => Blocks) else store mlc (fun x => set_lock x true).

Definition mutex_unlock (mlc : pointer) : M unit :=
  store mlc (fun x => set_lock x false).

Definition WARN_ON (condition : bool) : M unit :=
  fun w =>
    Returns tt
      (if condition
       then mk_world (index w) (ctrl w) (livedisplay w) (pcc_cfg w) (mdp w)
              (pcc_calls w) (S (warnings w))
       else w).

(** Modelled from the spec: [get_ctx] of mdss_livedisplay.h, the context of
    the panel that [mfd] drives. *)
Definition get_ctx (mfd : pointer) : M pointer :=
  fun w =>
    match mfd with
    | NULL => Oops
    | PTR => Returns (match livedisplay w with Some _ => PTR | None => NULL end) w
    end.

(** Modelled from the spec: [get_ctrl] of mdss_livedisplay.h, "the panel's
    current hardware-control handle", resolved from the context's owner. *)
Definition get_ctrl (mfd : pointer) : M (option mdss_dsi_ctrl_pdata) :=
  fun w =>
    match mfd with
    | NULL => Oops
    | PTR => Returns (ctrl w) w
    end.

(** [mlc->mfd->index]. *)
Definition mfd_index (mlc : pointer) : M Z :=
  m <- load mlc mfd ;;
  fun w => match m with NULL => Oops | PTR => Returns (index w) w end.

(** A write to the static [pcc_cfg]. *)
Definition pcc_cfg_store (upd : mdp_pcc_cfg_data.t -> mdp_pcc_cfg_data.t) : M unit :=
  fun w => Returns tt (set_pcc_cfg w (upd (pcc_cfg w))).

(** The call [mdss_mdp_user_pcc_config(&pcc_cfg)]. *)
Definition call_mdss_mdp_user_pcc_config : M Z :=
  fun w =>
    let (rc, mdp') := mdss_mdp_user_pcc_config (mdp w) (pcc_cfg w) in
    Returns rc
      (mk_world (index w) (ctrl w) (livedisplay w) (pcc_cfg w) mdp'
         (pcc_calls w ++ [pcc_cfg w]) (warnings w)).

Definition mdss_livedisplay_update_pcc (mlc : pointer) : M Z :=
  if is_null mlc then ret (- ENODEV) else
  held <- load mlc lock ;;
  WARN_ON (negb held) ;;
  (* pr_info: log output only *)
  pcc_cfg_store (fun _ => mdp_pcc_cfg_data.zero) ;;
  idx <- mfd_index mlc ;;
  pcc_cfg_store (fun x =>
    mdp_pcc_cfg_data.set_block x (wrap32 (idx + MDP_LOGICAL_BLOCK_DISP_0))) ;;
  vr <- load mlc r ;;
  vg <- load mlc g ;;
  vb <- load mlc b ;;
  (if (vr =? 32768) && (vg =? 32768) && (vb =? 32768)
   then pcc_cfg_store (fun x => mdp_pcc_cfg_data.set_ops x MDP_PP_OPS_DISABLE)
   else pcc_cfg_store (fun x => mdp_pcc_cfg_data.set_ops x MDP_PP_OPS_ENABLE)) ;;
  pcc_cfg_store (fun x =>
    mdp_pcc_cfg_data.set_ops x (Z.lor (mdp_pcc_cfg_data.ops x) MDP_PP_OPS_WRITE)) ;;
  pcc_cfg_store (fun x =>
    mdp_pcc_cfg_data.set_r x (mdp_pcc_coeff.set_r (mdp_pcc_cfg_data.r x) vr)) ;;
  pcc_cfg_store (fun x =>
    mdp_pcc_cfg_data.set_g x (mdp_pcc_coeff.set_g (mdp_pcc_cfg_data.g x) vg)) ;;
  pcc_cfg_store (fun x =>
    mdp_pcc_cfg_data.set_b x (mdp_pcc_coeff.set_b (mdp_pcc_cfg_data.b x) vb)) ;;
  call_mdss_mdp_user_pcc_config.

(** [container_of(work, struct mdss_livedisplay_ctx, update_work)]: the work
    item lives inside the context. *)
Definition container_of_update_work : M pointer :=
  fun w => Returns (match livedisplay w with Some _ => PTR | None => NULL end) w.

(** The worker's statements between [mutex_lock] and [mutex_unlock]
    (lines 106 to 111): apply what is pending, then clear the mask.  The
    result of [mdss_livedisplay_update_pcc] is dropped. *)
Definition worker_locked_section (mlc : pointer) : M unit :=
  u <- load mlc updated ;;
  (if Z.land u MODE_RGB =? 0
   then ret tt
   else (_ <- mdss_livedisplay_update_pcc mlc ;; ret tt)) ;;
  store mlc (fun x => set_updated x 0).

Definition mdss_livedisplay_worker : M unit :=
  mlc <- container_of_update_work ;;
  if is_null mlc then ret tt else
  m <- load mlc mfd ;;
  ctrl_pdata <- get_ctrl m ;;
  match ctrl_pdata with
  | None => ret tt
  | Some cp =>
      (* pinfo = &ctrl_pdata->panel_data.panel_info is never NULL *)
      if negb (mdss_panel_is_power_on_interactive (panel_power_state cp))
      then ret tt
      else
        mutex_lock mlc ;;
        worker_locked_section mlc ;;
        mutex_unlock mlc
  end.

(** Modelled from the spec: [queue_work] of kernel/workqueue.c.  "If a run is
    already queued but not yet started" the call changes nothing; otherwise
    the work item becomes pending on the queue. *)
Definition queue_work (q : pointer) (mlc : pointer) : M unit :=
  match q with
  | NULL => oops
  | PTR =>
      queued <- load mlc (fun x => pending (update_work x)) ;;
      if queued then ret tt else store mlc (fun x => set_update_work x (mk_work true))
  end.

Definition mdss_livedisplay_update (mlc : pointer) (mask : Z) : M unit :=
  mutex_lock mlc ;;
  store mlc (fun x => set_updated x (Z.lor (updated x) mask)) ;;
  mutex_unlock mlc ;;
  q <- load mlc wq ;;
  queue_work q mlc.

(** Modelled from the spec: the single-threaded queue's thread
    ([process_one_work]).  A pending item stops being pending and its
    function runs; the result tells whether an item ran. *)
Definition process_one_work : M bool :=
  fun w =>
    match livedisplay w with
    | Some x =>
        if pending (update_work x)
        then (store PTR (fun x => set_update_work x (mk_work false)) ;;
              mdss_livedisplay_worker ;;
              ret true) w
        else Returns false w
    | None => Returns false w
    end.

Definition mdss_livedisplay_get_rgb (fbi_par : pointer) : M (Z * string) :=
  let mfd := fbi_par in
  if is_null mfd then ret (- ENODEV, EmptyString) else
  mlc <- get_ctx mfd ;;
  vr <- load mlc r ;;
  vg <- load mlc g ;;
  vb <- load mlc b ;;
  ret (scnprintf_d_d_d_nl PAGE_SIZE vr vg vb).

Definition mdss_livedisplay_set_rgb (fbi_par : pointer) (buf : string) (count : Z) : M Z :=
  let mfd := fbi_par in
  if is_null mfd then ret (- ENODEV) else
  if count >? 19 then ret (- EINVAL) else
  mlc <- get_ctx mfd ;;
  (* pdata = dev_get_platdata(...) is not used *)
  let '(_, (vr, vg, vb)) := sscanf_d_d_d buf 0 0 0 in
  if (vr <? 0) || (vr >? 32768) then ret (- EINVAL) else
  if (vg <? 0) || (vg >? 32768) then ret (- EINVAL) else
  if (vb <? 0) || (vb >? 32768) then ret (- EINVAL) else
  mutex_lock mlc ;;
  store mlc (fun x => set_r x vr) ;;
  store mlc (fun x => set_g x vg) ;;
  store mlc (fun x => set_b x vb) ;;
  mutex_unlock mlc ;;
  mdss_livedisplay_update mlc MODE_RGB ;;
  ret count.

(** [kzalloc] and [create_singlethread_workqueue] return NULL on failure:
    their results are arguments.  The function checks neither. *)
Definition mdss_livedisplay_parse_dt
    (pinfo : pointer) (kzalloc : pointer) (create_singlethread_workqueue : pointer) : M Z :=
  if is_null pinfo then ret (- ENODEV) else
  match kzalloc with
  | NULL => oops (* mlc->r = ... *)
  | PTR =>
      fun w =>
        Returns 0
          (set_livedisplay w
             (Some (mk_ctx 32768 32768 32768 NULL false (mk_work false)
                      create_singlethread_workqueue 0)))
  end.

(** [rc] is the result of [sysfs_create_file]. *)
Definition mdss_livedisplay_create_sysfs (mfd : pointer) (rc : Z) : M Z :=
  mlc <- get_ctx mfd ;;
  if is_null mlc then ret 0 else
  if negb (rc =? 0) then ret rc (* pr_err *) else
  store mlc (fun x => set_mfd x mfd) ;;
  ret rc.

(** *** Calls in sequence

    The entry points run one at a time (each call is atomic in this model),
    so between calls the mutex is free. *)

(** The context [x] of [w] can serve a call: the mutex is free and the work
    queue exists. *)
Definition ready (w : world) (x : mdss_livedisplay_ctx) : Prop :=
  livedisplay w = Some x /\ lock x = false /\ wq x = PTR.

(** [set_rgb] stores this text: it is short enough and every value [sscanf]
    leaves in the three variables passes the range check. *)
Definition accepted (buf : string) (count : Z) : bool :=
  let '(_, (vr, vg, vb)) := sscanf_d_d_d buf 0 0 0 in
  negb (count >? 19) && (vr <=? 32768) && (vg <=? 32768) && (vb <=? 32768).

(** Successive writes of the attribute; the result codes are dropped. *)
Fixpoint write_all (calls : list (string * Z)) : M unit :=
  match calls with
  | [] => ret tt
  | (buf, count) :: rest =>
      _ <- mdss_livedisplay_set_rgb PTR buf count ;; write_all rest
  end.

(** What can happen to a panel after [mdss_livedisplay_parse_dt]. *)
Inductive op : Type :=
| op_create_sysfs (rc : Z)
| op_set_rgb (buf : string) (count : Z)
| op_get_rgb
| op_update (mask : Z)
| op_worker
| op_panel (c : option mdss_dsi_ctrl_pdata).

Definition step (o : op) : M unit :=
  match o with
  | op_create_sysfs rc => _ <- mdss_livedisplay_create_sysfs PTR rc ;; ret tt
  | op_set_rgb buf count => _ <- mdss_livedisplay_set_rgb PTR buf count ;; ret tt
  | op_get_rgb => _ <- mdss_livedisplay_get_rgb PTR ;; ret tt
  | op_update mask => mlc <- get_ctx PTR ;; mdss_livedisplay_update mlc mask
  | op_worker => _ <- process_one_work ;; ret tt
  | op_panel c => fun w => Returns tt (set_ctrl w c)
  end.

(** The states reachable from initialization: [mdss_livedisplay_parse_dt]
    returned 0, then any operations ran to completion. *)
Inductive reachable : world -> Prop :=
| reachable_init (w0 w : world) (kzalloc q : pointer) :
    mdss_livedisplay_parse_dt PTR kzalloc q w0 = Returns 0 w ->
    reachable w
| reachable_step (w w' : world) (o : op) :
    reachable w ->
    step o w = Returns tt w' ->
    reachable w'.

(** The command [mdss_livedisplay_update_pcc] builds from the context [x] of
    a panel with index [idx]. *)
Definition pcc_command (idx : Z) (x : mdss_livedisplay_ctx) : mdp_pcc_cfg_data.t :=
  mdp_pcc_cfg_data.mk
    (wrap32 (idx + MDP_LOGICAL_BLOCK_DISP_0))
    (Z.lor
       (if (r x =? 32768) && (g x =? 32768) && (b x =? 32768)
        then MDP_PP_OPS_DISABLE else MDP_PP_OPS_ENABLE)
       MDP_PP_OPS_WRITE)
    (mdp_pcc_coeff.mk 0 (r x) 0 0 0 0 0 0 0 0 0 0)
    (mdp_pcc_coeff.mk 0 0 (g x) 0 0 0 0 0 0 0 0 0)
    (mdp_pcc_coeff.mk 0 0 0 (b x) 0 0 0 0 0 0 0 0).

(** [w'] holds the red, green and blue of [w]. *)
Definition same_rgb (w w' : world) : Prop :=
  forall x', livedisplay w' = Some x' ->
  exists x, livedisplay w = Some x /\ r x' = r x /\ g x' = g x /\ b x' = b x.

(** The range invariant of the three channels. *)
Definition rgb_in_range (x : mdss_livedisplay_ctx) : Prop :=
  (0 <= r x <= 32768) /\ (0 <= g x <= 32768) /\ (0 <= b x <= 32768).

(** Every context of the state is in range. *)
Definition in_range (w : world) : Prop :=
  forall x, livedisplay w = Some x -> rgb_in_range x.

(** No context of the state has its mutex held. *)
Definition lock_free (w : world) : Prop :=
  forall x, livedisplay w = Some x -> lock x = false.

End LiveDisplay.

Arguments Returns {P A} a w.
Arguments Oops {P A}.
Arguments Blocks {P A}.

(** ** Sample states *)

(** A panel on the sample platform before initialization: framebuffer 0,
    control data resolved with power state [power], pipeline script [rcs]. *)
Definition fresh (power : Z) (rcs : list Z) : @world msm8974 :=
  @mk_world msm8974 0 (Some (mk_ctrl power)) None mdp_pcc_cfg_data.zero rcs [] 0%nat.

(** The same panel once initialized and registered, holding [x]. *)
Definition panel_with (power : Z) (rcs : list Z) (x : mdss_livedisplay_ctx) : @world msm8974 :=
  @mk_world msm8974 0 (Some (mk_ctrl power)) (Some x) mdp_pcc_cfg_data.zero rcs [] 0%nat.

(** The context as initialization and registration leave it. *)
Definition default_ctx : mdss_livedisplay_ctx :=
  mk_ctx 32768 32768 32768 PTR false (mk_work false) PTR 0.

(** A context holding a calibrated triple. *)
Definition warm : mdss_livedisplay_ctx :=
  mk_ctx 100 200 300 PTR false (mk_work false) PTR 0.

(** A context with a written triple, [MODE_RGB] pending and its work item
    queued. *)
Definition queued : mdss_livedisplay_ctx :=
  mk_ctx 25828 17347 8192 PTR false (mk_work true) PTR 32.

(** ** Proof automation *)

(** Unfolds one driver call on a state whose shape is known. *)
Ltac run :=
  cbv [mdss_livedisplay_set_rgb mdss_livedisplay_get_rgb mdss_livedisplay_update
       mdss_livedisplay_worker worker_locked_section mdss_livedisplay_update_pcc
       mdss_livedisplay_parse_dt mdss_livedisplay_create_sysfs
       process_one_work queue_work container_of_update_work
       call_mdss_mdp_user_pcc_config pcc_cfg_store mfd_index get_ctrl get_ctx
       WARN_ON mutex_lock mutex_unlock load store oops bind ret is_null
       set_livedisplay set_pcc_cfg set_ctrl
       set_r set_g set_b set_mfd set_lock set_update_work set_updated
       livedisplay index ctrl pcc_cfg mdp pcc_calls warnings
       r g b mfd lock update_work wq updated pending negb
       mdp_pcc_cfg_data.set_block mdp_pcc_cfg_data.set_ops mdp_pcc_cfg_data.set_r
       mdp_pcc_cfg_data.set_g mdp_pcc_cfg_data.set_b mdp_pcc_cfg_data.zero
       mdp_pcc_cfg_data.block mdp_pcc_cfg_data.ops mdp_pcc_cfg_data.r
       mdp_pcc_cfg_data.g mdp_pcc_cfg_data.b
       mdp_pcc_coeff.set_r mdp_pcc_coeff.set_g mdp_pcc_coeff.set_b mdp_pcc_coeff.zero
       mdp_pcc_coeff.c mdp_pcc_coeff.r mdp_pcc_coeff.g mdp_pcc_coeff.b
       mdp_pcc_coeff.rr mdp_pcc_coeff.gg mdp_pcc_coeff.bb mdp_pcc_coeff.rg
       mdp_pcc_coeff.gb mdp_pcc_coeff.rb mdp_pcc_coeff.rgb_0 mdp_pcc_coeff.rgb_1].

(** Names the two components of the pipeline's answer. *)
Ltac pipeline_answer :=
  match goal with
  | |- context [mdss_mdp_user_pcc_config ?st ?cmd] =>
      destruct (mdss_mdp_user_pcc_config st cmd) as [rc mdp'] eqn:Hanswer
  end.

(** Splits on the tests a call still waits for, running it further. *)
Ltac crunch :=
  repeat (match goal with
          | |- context [if ?c then _ else _] => destruct c eqn:?
          | |- context [match ?o with Some _ => _ | None => _ end] => destruct o eqn:?
          | |- context [let (_, _) := ?p in _] => destruct p eqn:?
          end; run).

(** Closes a [same_rgb] goal about a call that returned. *)
Ltac frame w :=
  let H := fresh "H" in
  let Hx := fresh "Hx" in
  let x' := fresh "x'" in
  intros H x' Hx;
  destruct w as [wi wc [[xr xg xb xm xl [xp] xq xu] |] wp wm wk ww];
  revert H; run; crunch;
  intros H; try discriminate H;
  inversion H; subst; clear H;
  cbv [livedisplay] in Hx; try discriminate Hx;
  inversion Hx; subst; clear Hx;
  eexists; repeat split; reflexivity.

(** ** Properties of the text functions *)

Lemma wrap32_range (z : Z) : 0 <= wrap32 z < 2 ^ 32.
Proof. unfold wrap32. apply Z.mod_pos_bound. lia. Qed.

Lemma wrap32_small (z : Z) : 0 <= z < 2 ^ 32 -> wrap32 z = z.
Proof. intros H. unfold wrap32. apply Z.mod_small. exact H. Qed.

Lemma as_int32_small (z : Z) : 0 <= z < 2 ^ 31 -> as_int32 z = z.
Proof.
  intros H. unfold as_int32. rewrite wrap32_small by lia.
  destruct (z <? 2 ^ 31) eqn:E; [reflexivity | apply Z.ltb_ge in E; lia].
Qed.

(** A decimal digit's character: a digit, neither blank, sign nor NUL, and
    [digit_val] reads it back. *)
Lemma digit_char_spec (d : Z) :
  0 <= d < 10 ->
  isdigit (digit_char d) = true /\
  isspace (digit_char d) = false /\
  (digit_char d =? "-")%char = false /\
  (nat_of_ascii (digit_char d) =? 0)%nat = false /\
  digit_val (digit_char d) = d.
Proof.
  intros H.
  assert (E : d = 0 \/ d = 1 \/ d = 2 \/ d = 3 \/ d = 4 \/
              d = 5 \/ d = 6 \/ d = 7 \/ d = 8 \/ d = 9) by lia.
  repeat (destruct E as [E | E]; [subst d; repeat split; reflexivity | ]).
  subst d; repeat split; reflexivity.
Qed.

Lemma mod10_digit (n : Z) : 0 <= n mod 10 < 10.
Proof. apply Z.mod_pos_bound. lia. Qed.

(** With some fuel, [put_dec] writes at least one digit. *)
Lemma put_dec_head (fuel : nat) : forall n tail,
  exists ch rest,
    put_dec (S fuel) n tail = String ch rest /\
    isdigit ch = true /\ isspace ch = false /\ (ch =? "-")%char = false.
Proof.
  induction fuel as [| fuel IH]; intros n tail.
  - destruct (digit_char_spec (n mod 10) (mod10_digit n)) as (Hd & Hs & Hm & _).
    simpl. destruct (n <? 10); eauto 6.
  - change (put_dec (S (S fuel)) n tail)
      with (if n <? 10 then String (digit_char (n mod 10)) tail
            else put_dec (S fuel) (n / 10) (String (digit_char (n mod 10)) tail)).
    destruct (n <? 10).
    + destruct (digit_char_spec (n mod 10) (mod10_digit n)) as (Hd & Hs & Hm & _).
      eauto 6.
    + apply IH.
Qed.

(** Reading back what [put_dec] wrote: the digits of [n] in front of [tail]
    parse to [n], and parsing goes on into [tail]. *)
Lemma parse_put_dec (fuel : nat) : forall n tail,
  0 <= n < 10 ^ Z.of_nat fuel ->
  parse_integer 0 (put_dec fuel n tail) = parse_integer n tail.
Proof.
  induction fuel as [| fuel IH]; intros n tail Hn.
  - simpl in Hn. assert (n = 0) by lia. subst n. reflexivity.
  - rewrite Nat2Z.inj_succ, Z.pow_succ_r in Hn by lia.
    destruct (digit_char_spec (n mod 10) (mod10_digit n)) as (Hd & _ & _ & _ & Hv).
    simpl put_dec. destruct (n <? 10) eqn:E.
    + apply Z.ltb_lt in E. simpl. rewrite Hd, Hv.
      rewrite Z.mod_small by lia. reflexivity.
    + apply Z.ltb_ge in E. rewrite IH.
      * simpl. rewrite Hd, Hv. f_equal.
        pose proof (Z.div_mod n 10). lia.
      * split; [apply Z.div_pos; lia | apply Z.div_lt_upper_bound; lia].
Qed.

(** A number below [10 ^ k] takes at most [k] characters. *)
Lemma put_dec_length (fuel : nat) : forall (k : nat) n tail,
  (1 <= k)%nat -> 0 <= n < 10 ^ Z.of_nat k ->
  (String.length (put_dec fuel n tail) <= k + String.length tail)%nat.
Proof.
  induction fuel as [| fuel IH]; intros k n tail Hk Hn.
  - simpl. lia.
  - simpl. destruct (n <? 10) eqn:E.
    + simpl. lia.
    + apply Z.ltb_ge in E. destruct k as [| k]; [lia |].
      rewrite Nat2Z.inj_succ, Z.pow_succ_r in Hn by lia.
      destruct k as [| k]; [simpl in Hn; lia |].
      etransitivity.
      * apply (IH (S k)); [lia |].
        split; [apply Z.div_pos; lia | apply Z.div_lt_upper_bound; lia].
      * simpl. lia.
Qed.

(** The digits contain no NUL. *)
Lemma c_string_put_dec (fuel : nat) : forall n tail,
  c_string (put_dec fuel n tail) = put_dec fuel n (c_string tail).
Proof.
  induction fuel as [| fuel IH]; intros n tail; [reflexivity |].
  destruct (digit_char_spec (n mod 10) (mod10_digit n)) as (_ & _ & _ & Hz & _).
  simpl. destruct (n <? 10).
  - simpl. rewrite Hz. reflexivity.
  - rewrite IH. simpl. rewrite Hz. reflexivity.
Qed.

Lemma string_app_assoc (s1 s2 s3 : string) :
  ((s1 ++ s2) ++ s3 = s1 ++ (s2 ++ s3))%string.
Proof. induction s1 as [| ch s1 IH]; simpl; [| rewrite IH]; reflexivity. Qed.

Lemma string_cons_app (ch : ascii) (s1 s2 : string) :
  (String ch s1 ++ s2 = String ch (s1 ++ s2))%string.
Proof. reflexivity. Qed.

Lemma string_app_length (s1 s2 : string) :
  String.length (s1 ++ s2) = (String.length s1 + String.length s2)%nat.
Proof. induction s1 as [| ch s1 IH]; simpl; [| rewrite IH]; reflexivity. Qed.

Lemma put_dec_append (fuel : nat) : forall n tail,
  put_dec fuel n tail = (put_dec fuel n EmptyString ++ tail)%string.
Proof.
  induction fuel as [| fuel IH]; intros n tail; [reflexivity |].
  simpl. destruct (n <? 10); [reflexivity |].
  rewrite IH. rewrite (IH _ (String _ EmptyString)).
  rewrite string_app_assoc. reflexivity.
Qed.

Lemma truncate_all (s : string) : forall n,
  (String.length s <= n)%nat -> truncate n s = s.
Proof.
  induction s as [| ch s IH]; intros n H.
  - destruct n; reflexivity.
  - destruct n as [| n]; simpl in H; [lia |].
    simpl. rewrite IH by lia. reflexivity.
Qed.

Lemma fmt_d_small (v : Z) (tail : string) :
  0 <= v <= 32768 -> fmt_d v tail = put_dec 10 v tail.
Proof.
  intros H. unfold fmt_d. rewrite as_int32_small by lia.
  destruct (v <? 0) eqn:E; [apply Z.ltb_lt in E; lia | reflexivity].
Qed.

(** One conversion reads back one printed value, possibly after blanks,
    when the text that follows does not go on with a digit. *)
Lemma scan_d_fmt_d (v : Z) (tail : string) :
  0 <= v <= 32768 -> isdigit (peek tail) = false ->
  scan_d (fmt_d v tail) = Some (v, tail).
Proof.
  intros Hv Ht. rewrite fmt_d_small by exact Hv.
  destruct (put_dec_head 9 v tail) as (ch & rest & E & Hd & Hs & Hm).
  assert (Hp : parse_integer 0 (put_dec 10 v tail) = (v, tail)).
  { rewrite parse_put_dec by (simpl; lia).
    destruct tail as [| t tail']; [reflexivity |].
    simpl in Ht. simpl. rewrite Ht. reflexivity. }
  rewrite E in *. unfold scan_d. simpl skip_spaces. rewrite Hs.
  unfold simple_strtol, simple_strtoul. simpl peek. rewrite Hm, Hd, Hp.
  rewrite wrap32_small by lia. reflexivity.
Qed.

Lemma scan_d_space_fmt_d (v : Z) (tail : string) :
  0 <= v <= 32768 -> isdigit (peek tail) = false ->
  scan_d (String " " (fmt_d v tail)) = Some (v, tail).
Proof.
  intros Hv Ht. pose proof (scan_d_fmt_d v tail Hv Ht) as H.
  rewrite fmt_d_small in * by exact Hv.
  destruct (put_dec_head 9 v tail) as (ch & rest & E & Hd & Hs & Hm).
  rewrite E in *. unfold scan_d in *. simpl skip_spaces in *.
  rewrite Hs in *. exact H.
Qed.

Lemma c_string_space (s : string) :
  c_string (String " " s) = String " " (c_string s).
Proof. reflexivity. Qed.

(** The printed triple, followed by [tail]. *)
Lemma c_string_triple (vr vg vb : Z) (tail : string) :
  0 <= vr <= 32768 -> 0 <= vg <= 32768 -> 0 <= vb <= 32768 ->
  c_string tail = tail ->
  c_string (fmt_d vr (String " " (fmt_d vg (String " " (fmt_d vb tail))))) =
  fmt_d vr (String " " (fmt_d vg (String " " (fmt_d vb tail)))).
Proof.
  intros Hr Hg Hb Ht. rewrite !fmt_d_small by assumption.
  rewrite c_string_put_dec, c_string_space.
  rewrite c_string_put_dec, c_string_space.
  rewrite c_string_put_dec, Ht. reflexivity.
Qed.

(** [sscanf] reads back the three values of a printed triple, whatever
    follows it that is not a digit. *)
Lemma sscanf_triple (vr vg vb r0 g0 b0 : Z) (tail : string) :
  0 <= vr <= 32768 -> 0 <= vg <= 32768 -> 0 <= vb <= 32768 ->
  c_string tail = tail -> isdigit (peek tail) = false ->
  sscanf_d_d_d (fmt_d vr (String " " (fmt_d vg (String " " (fmt_d vb tail)))))
    r0 g0 b0 = (3, (vr, vg, vb)).
Proof.
  intros Hr Hg Hb Ht Hd. unfold sscanf_d_d_d.
  rewrite c_string_triple by assumption.
  rewrite scan_d_fmt_d by (assumption || reflexivity).
  rewrite scan_d_space_fmt_d by (assumption || reflexivity).
  rewrite scan_d_space_fmt_d by assumption.
  reflexivity.
Qed.

Lemma sscanf_rgb_text (vr vg vb r0 g0 b0 : Z) :
  0 <= vr <= 32768 -> 0 <= vg <= 32768 -> 0 <= vb <= 32768 ->
  sscanf_d_d_d (rgb_text vr vg vb) r0 g0 b0 = (3, (vr, vg, vb)).
Proof.
  intros Hr Hg Hb. apply sscanf_triple; (assumption || reflexivity).
Qed.

(** The text with its newline is the text [scnprintf] builds. *)
Lemma rgb_text_newline (vr vg vb : Z) :
  0 <= vr <= 32768 -> 0 <= vg <= 32768 -> 0 <= vb <= 32768 ->
  fmt_d vr (String " " (fmt_d vg (String " "
    (fmt_d vb (String (ascii_of_nat 10) EmptyString))))) =
  (rgb_text vr vg vb ++ String (ascii_of_nat 10) EmptyString)%string.
Proof.
  intros Hr Hg Hb.
  unfold rgb_text. rewrite !fmt_d_small by assumption.
  rewrite (put_dec_append 10 vb (String _ _)).
  rewrite (put_dec_append 10 vg (String _ _)).
  rewrite (put_dec_append 10 vr (String _ _)).
  rewrite (put_dec_append 10 vg (String " " (put_dec 10 vb EmptyString))).
  rewrite (put_dec_append 10 vr (String " " (_ ++ _)%string)).
  repeat (rewrite string_app_assoc || rewrite string_cons_app).
  reflexivity.
Qed.

Lemma strlen_rgb_text (vr vg vb : Z) :
  0 <= vr <= 32768 -> 0 <= vg <= 32768 -> 0 <= vb <= 32768 ->
  0 <= strlen (rgb_text vr vg vb) <= 17.
Proof.
  intros Hr Hg Hb. unfold strlen, rgb_text. rewrite !fmt_d_small by assumption.
  pose proof (put_dec_length 10 5 vb EmptyString) as H3.
  pose proof (put_dec_length 10 5 vg (String " " (put_dec 10 vb EmptyString))) as H2.
  pose proof (put_dec_length 10 5 vr
    (String " " (put_dec 10 vg (String " " (put_dec 10 vb EmptyString))))) as H1.
  simpl String.length in *. simpl Z.of_nat in *. lia.
Qed.

(** What [scnprintf] writes for an in-range triple: the text and a newline,
    in full. *)
Lemma scnprintf_rgb (vr vg vb : Z) :
  0 <= vr <= 32768 -> 0 <= vg <= 32768 -> 0 <= vb <= 32768 ->
  scnprintf_d_d_d_nl PAGE_SIZE vr vg vb =
  (strlen (rgb_text vr vg vb) + 1,
   (rgb_text vr vg vb ++ String (ascii_of_nat 10) EmptyString)%string).
Proof.
  intros Hr Hg Hb.
  pose proof (strlen_rgb_text vr vg vb Hr Hg Hb) as Hlen.
  pose proof (rgb_text_newline vr vg vb Hr Hg Hb) as E.
  unfold scnprintf_d_d_d_nl. rewrite E.
  assert (L : String.length (rgb_text vr vg vb ++ String (ascii_of_nat 10) EmptyString)
              = S (String.length (rgb_text vr vg vb))).
  { rewrite string_app_length. simpl. lia. }
  rewrite truncate_all.
  - unfold strlen in *. rewrite L. f_equal. lia.
  - unfold strlen in Hlen. rewrite L. unfold PAGE_SIZE. lia.
Qed.

(** Whatever the text, the three variables end as 32-bit values, and a
    variable that was not converted keeps the 0 it started with. *)
Lemma scan_d_range (str : string) (v : Z) (next : string) :
  scan_d str = Some (v, next) -> 0 <= v < 2 ^ 32.
Proof.
  unfold scan_d. destruct str; [discriminate |].
  destruct (isdigit _); [| discriminate].
  destruct (simple_strtol _) as [v' next']. intros H.
  injection H as <- _. apply wrap32_range.
Qed.

Lemma sscanf_range (buf : string) (n vr vg vb : Z) :
  sscanf_d_d_d buf 0 0 0 = (n, (vr, vg, vb)) ->
  (0 <= vr < 2 ^ 32 /\ 0 <= vg < 2 ^ 32 /\ 0 <= vb < 2 ^ 32) /\
  (0 <= n <= 3) /\
  (n < 3 -> vb = 0) /\ (n < 2 -> vg = 0) /\ (n < 1 -> vr = 0).
Proof.
  unfold sscanf_d_d_d.
  destruct (scan_d (c_string buf)) as [[v1 s1] |] eqn:E1.
  2: { intros H; injection H as <- <- <- <-. lia. }
  apply scan_d_range in E1.
  destruct (scan_d s1) as [[v2 s2] |] eqn:E2.
  2: { intros H; injection H as <- <- <- <-. lia. }
  apply scan_d_range in E2.
  destruct (scan_d s2) as [[v3 s3] |] eqn:E3.
  2: { intros H; injection H as <- <- <- <-. lia. }
  apply scan_d_range in E3.
  intros H; injection H as <- <- <- <-. lia.
Qed.

(** ** Properties of the driver *)

Section Properties.

Context {P : Platform}.

Lemma range_check_passes (v : Z) :
  0 <= v -> v <= 32768 -> (v <? 0) || (v >? 32768) = false.
Proof.
  intros H0 H1. apply orb_false_iff. split.
  - apply Z.ltb_ge. exact H0.
  - rewrite Z.gtb_ltb. apply Z.ltb_ge. exact H1.
Qed.

Lemma range_check_fails (v : Z) :
  32768 < v -> (v <? 0) || (v >? 32768) = true.
Proof.
  intros H. apply orb_true_iff. right.
  rewrite Z.gtb_ltb. apply Z.ltb_lt. exact H.
Qed.

(** An accepted write on a ready context: the three values [sscanf] left are
    stored, [MODE_RGB] is ORed into the pending mask, the work item is
    pending, and [count] is returned.  Nothing else changes. *)
Lemma set_rgb_stores (w : world) (x : mdss_livedisplay_ctx)
    (buf : string) (count n vr vg vb : Z) :
  ready w x ->
  (count >? 19) = false ->
  sscanf_d_d_d buf 0 0 0 = (n, (vr, vg, vb)) ->
  vr <= 32768 -> vg <= 32768 -> vb <= 32768 ->
  mdss_livedisplay_set_rgb PTR buf count w =
  Returns count
    (set_livedisplay w
       (Some (mk_ctx vr vg vb (mfd x) false (mk_work true) PTR
                (Z.lor (updated x) MODE_RGB)))).
Proof.
  intros (Hx & Hl & Hq) Hc Hs Hr Hg Hb.
  destruct (sscanf_range _ _ _ _ _ Hs) as ((Rr & Rg & Rb) & _).
  destruct w as [wi wc wl wp wm wk ww].
  destruct x as [xr xg xb xm xl [xp] xq xu].
  simpl in Hx, Hl, Hq. subst wl xl xq.
  unfold mdss_livedisplay_set_rgb. simpl is_null. cbv iota.
  rewrite Hc, Hs.
  unfold bind at 1. unfold get_ctx at 1. simpl livedisplay. cbv iota beta.
  rewrite !range_check_passes by lia.
  run. destruct xp; reflexivity.
Qed.

(** C1 (as amended).  A write whose text leaves a value above 32768 in one
    of the three unsigned 32-bit variables that [sscanf] fills, or whose
    [count] exceeds 19, returns [-EINVAL] and leaves the whole state as it
    was: the stored triple, the pending mask and the work item are
    untouched. *)
Theorem set_rgb_rejects_out_of_range_or_too_long
    (w : world) (buf : string) (count n vr vg vb : Z) :
  sscanf_d_d_d buf 0 0 0 = (n, (vr, vg, vb)) ->
  19 < count \/ 32768 < vr \/ 32768 < vg \/ 32768 < vb ->
  mdss_livedisplay_set_rgb PTR buf count w = Returns (- EINVAL) w.
Proof.
  intros Hs Hbad.
  destruct (sscanf_range _ _ _ _ _ Hs) as ((Rr & Rg & Rb) & _).
  unfold mdss_livedisplay_set_rgb. simpl is_null. cbv iota.
  destruct (count >? 19) eqn:Hc; [reflexivity |].
  rewrite Z.gtb_ltb in Hc. apply Z.ltb_ge in Hc.
  rewrite Hs. unfold bind at 1, get_ctx at 1.
  destruct (Z_lt_le_dec 32768 vr) as [Hr | Hr].
  { rewrite range_check_fails by exact Hr. reflexivity. }
  rewrite (range_check_passes vr) by lia.
  destruct (Z_lt_le_dec 32768 vg) as [Hg | Hg].
  { rewrite range_check_fails by exact Hg. reflexivity. }
  rewrite (range_check_passes vg) by lia.
  destruct (Z_lt_le_dec 32768 vb) as [Hb | Hb].
  { rewrite range_check_fails by exact Hb. reflexivity. }
  lia.
Qed.

(** C2.  Writing the text of an in-range triple stores it and returns the
    length of the text; reading the attribute then gives the same text
    followed by a newline, and its length; and that output reads back as
    the three values. *)
Theorem set_rgb_then_get_rgb
    (w : world) (x : mdss_livedisplay_ctx) (vr vg vb : Z) :
  ready w x ->
  0 <= vr <= 32768 -> 0 <= vg <= 32768 -> 0 <= vb <= 32768 ->
  exists w' x',
    mdss_livedisplay_set_rgb PTR (rgb_text vr vg vb) (strlen (rgb_text vr vg vb)) w =
      Returns (strlen (rgb_text vr vg vb)) w' /\
    livedisplay w' = Some x' /\ r x' = vr /\ g x' = vg /\ b x' = vb /\
    mdss_livedisplay_get_rgb PTR w' =
      Returns (strlen (rgb_text vr vg vb) + 1,
               (rgb_text vr vg vb ++ String (ascii_of_nat 10) EmptyString)%string) w' /\
    sscanf_d_d_d (rgb_text vr vg vb ++ String (ascii_of_nat 10) EmptyString) 0 0 0 =
      (3, (vr, vg, vb)).
Proof.
  intros Hready Hr Hg Hb.
  pose proof (strlen_rgb_text vr vg vb Hr Hg Hb) as Hlen.
  eexists. eexists. split.
  - apply (set_rgb_stores w x _ _ 3 vr vg vb); try lia; try assumption.
    apply sscanf_rgb_text; assumption.
  - repeat split; try reflexivity.
    + run. rewrite scnprintf_rgb by assumption. reflexivity.
    + rewrite <- rgb_text_newline by assumption.
      apply sscanf_triple; (assumption || reflexivity).
Qed.

(** C3.  A worker run on a panel whose power state is not interactive
    returns with the state exactly as it found it: no command was submitted
    to the pipeline and the pending mask keeps its bits. *)
Theorem worker_not_interactive
    (w : world) (x : mdss_livedisplay_ctx) (cp : mdss_dsi_ctrl_pdata) :
  livedisplay w = Some x ->
  mfd x = PTR ->
  ctrl w = Some cp ->
  mdss_panel_is_power_on_interactive (panel_power_state cp) = false ->
  mdss_livedisplay_worker w = Returns tt w /\
  (forall w', mdss_livedisplay_worker w = Returns tt w' ->
     pcc_calls w' = pcc_calls w /\
     exists x', livedisplay w' = Some x' /\ updated x' = updated x).
Proof.
  intros Hx Hm Hc Hp.
  assert (E : mdss_livedisplay_worker w = Returns tt w).
  { destruct w as [wi wc wl wp wm wk ww].
    destruct x as [xr xg xb xm xl xw xq xu].
    simpl in Hx, Hm, Hc. subst wl xm wc.
    run. rewrite Hp. reflexivity. }
  split; [exact E |].
  intros w' E'. rewrite E in E'. injection E' as <-.
  split; [reflexivity |]. exists x. split; [exact Hx | reflexivity].
Qed.

(** What a call of the hardware programmer does on a context that has its
    owner: the static buffer holds [pcc_command], that command is submitted
    once, and the pipeline's result code is returned. *)
Lemma update_pcc_runs (w : world) (x : mdss_livedisplay_ctx) :
  livedisplay w = Some x ->
  mfd x = PTR ->
  exists w',
    mdss_livedisplay_update_pcc PTR w =
      Returns (fst (mdss_mdp_user_pcc_config (mdp w) (pcc_command (index w) x))) w' /\
    pcc_cfg w' = pcc_command (index w) x /\
    pcc_calls w' = pcc_calls w ++ [pcc_command (index w) x] /\
    mdp w' = snd (mdss_mdp_user_pcc_config (mdp w) (pcc_command (index w) x)) /\
    livedisplay w' = livedisplay w /\ index w' = index w /\ ctrl w' = ctrl w.
Proof.
  intros Hx Hm.
  destruct w as [wi wc wl wp wm wk ww].
  destruct x as [xr xg xb xm xl xw xq xu].
  simpl in Hx, Hm. subst wl xm.
  unfold pcc_command. destruct xl; run;
    destruct ((xr =? 32768) && (xg =? 32768) && (xb =? 32768));
    run; pipeline_answer; eexists; repeat split.
Qed.



(** C5.  The hardware programmer submits one command; its operation flags
    are DISABLE | WRITE when red, green and blue all equal 32768 and
    ENABLE | WRITE in every other case (so, where the two words differ, the
    disable word is there if and only if all three equal 32768). *)
Theorem update_pcc_operation_flags (w : world) (x : mdss_livedisplay_ctx) :
  livedisplay w = Some x ->
  mfd x = PTR ->
  exists rc w' cmd,
    mdss_livedisplay_update_pcc PTR w = Returns rc w' /\
    pcc_calls w' = pcc_calls w ++ [cmd] /\
    (r x = 32768 /\ g x = 32768 /\ b x = 32768 ->
       mdp_pcc_cfg_data.ops cmd = Z.lor MDP_PP_OPS_DISABLE MDP_PP_OPS_WRITE) /\
    (~ (r x = 32768 /\ g x = 32768 /\ b x = 32768) ->
       mdp_pcc_cfg_data.ops cmd = Z.lor MDP_PP_OPS_ENABLE MDP_PP_OPS_WRITE) /\
    (Z.lor MDP_PP_OPS_DISABLE MDP_PP_OPS_WRITE <>
     Z.lor MDP_PP_OPS_ENABLE MDP_PP_OPS_WRITE ->
       (mdp_pcc_cfg_data.ops cmd = Z.lor MDP_PP_OPS_DISABLE MDP_PP_OPS_WRITE <->
        r x = 32768 /\ g x = 32768 /\ b x = 32768)).
Proof.
  intros Hx Hm.
  destruct (update_pcc_runs w x Hx Hm) as (w' & E & _ & Hk & _).
  exists (fst (mdss_mdp_user_pcc_config (mdp w) (pcc_command (index w) x))), w',
    (pcc_command (index w) x).
  split; [exact E |]. split; [exact Hk |].
  unfold pcc_command. cbv [mdp_pcc_cfg_data.ops].
  destruct (Z.eqb_spec (r x) 32768) as [Er | Er];
    destruct (Z.eqb_spec (g x) 32768) as [Eg | Eg];
    destruct (Z.eqb_spec (b x) 32768) as [Eb | Eb];
    cbv [andb]; repeat split; intros; try tauto; try congruence;
    exfalso; intuition congruence.
Qed.

(** C6.  Given no context the hardware programmer returns [-ENODEV] and
    changes nothing.  Given the context of a panel, it submits one command
    whose block is the panel's index plus MDP_LOGICAL_BLOCK_DISP_0 (in
    32-bit arithmetic), whose rows carry the stored red, green and blue on
    the diagonal and 0 everywhere else, and it returns the result code the
    pipeline gave for that command. *)
Theorem update_pcc_command (w : world) (x : mdss_livedisplay_ctx) :
  livedisplay w = Some x ->
  mfd x = PTR ->
  mdss_livedisplay_update_pcc NULL w = Returns (- ENODEV) w /\
  exists rc w' cmd,
    mdss_livedisplay_update_pcc PTR w = Returns rc w' /\
    pcc_calls w' = pcc_calls w ++ [cmd] /\
    mdss_mdp_user_pcc_config (mdp w) cmd = (rc, mdp w') /\
    mdp_pcc_cfg_data.block cmd = wrap32 (index w + MDP_LOGICAL_BLOCK_DISP_0) /\
    mdp_pcc_cfg_data.r cmd = mdp_pcc_coeff.mk 0 (r x) 0 0 0 0 0 0 0 0 0 0 /\
    mdp_pcc_cfg_data.g cmd = mdp_pcc_coeff.mk 0 0 (g x) 0 0 0 0 0 0 0 0 0 /\
    mdp_pcc_cfg_data.b cmd = mdp_pcc_coeff.mk 0 0 0 (b x) 0 0 0 0 0 0 0 0.
Proof.
  intros Hx Hm. split; [reflexivity |].
  destruct (update_pcc_runs w x Hx Hm) as (w' & E & _ & Hk & Hmdp & _).
  exists (fst (mdss_mdp_user_pcc_config (mdp w) (pcc_command (index w) x))), w',
    (pcc_command (index w) x).
  repeat split; try assumption.
  rewrite Hmdp. apply surjective_pairing.
Qed.

(** Initialization has two result codes only: no path returns [-ENOMEM]
    (nor any other allocation error). *)
Lemma parse_dt_result_codes (w w' : world) (pinfo kzalloc q : pointer) (rc : Z) :
  mdss_livedisplay_parse_dt pinfo kzalloc q w = Returns rc w' ->
  rc = 0 \/ rc = - ENODEV.
Proof.
  unfold mdss_livedisplay_parse_dt.
  destruct pinfo; cbv beta iota delta [is_null ret oops].
  - intros H; injection H as <- _. right; reflexivity.
  - destruct kzalloc; [discriminate |].
    intros H; injection H as <- _. left; reflexivity.
Qed.

(** C7 (as amended).  Given a panel-info handle (and memory), initialization
    returns 0 and installs a context whose three channels are 32768 and
    whose pending mask is empty; the mutex is free, no work is queued, and
    the owner is not yet set.  Without a panel-info handle it returns
    [-ENODEV] and changes nothing. *)
Theorem parse_dt_initializes (w : world) (kzalloc q : pointer) :
  mdss_livedisplay_parse_dt PTR PTR q w =
    Returns 0
      (set_livedisplay w
         (Some (mk_ctx 32768 32768 32768 NULL false (mk_work false) q 0))) /\
  mdss_livedisplay_parse_dt NULL kzalloc q w = Returns (- ENODEV) w.
Proof. split; reflexivity. Qed.

(** *** The range invariant *)

Lemma create_sysfs_same_rgb (w w' : world) (rc a : Z) :
  mdss_livedisplay_create_sysfs PTR rc w = Returns a w' -> same_rgb w w'.
Proof. frame w. Qed.

Lemma get_rgb_same_rgb (w w' : world) (a : Z * string) :
  mdss_livedisplay_get_rgb PTR w = Returns a w' -> same_rgb w w'.
Proof. frame w. Qed.

Lemma update_same_rgb (w w' : world) (mlc : pointer) (mask : Z) :
  mdss_livedisplay_update mlc mask w = Returns tt w' -> same_rgb w w'.
Proof. destruct mlc; frame w. Qed.

Lemma process_one_work_same_rgb (w w' : world) (a : bool) :
  process_one_work w = Returns a w' -> same_rgb w w'.
Proof. frame w. Qed.

Lemma same_rgb_in_range (w w' : world) :
  same_rgb w w' -> in_range w -> in_range w'.
Proof.
  intros Hs Hw x' Hx'. destruct (Hs x' Hx') as (x & Hx & Er & Eg & Eb).
  specialize (Hw x Hx). unfold rgb_in_range in *. rewrite Er, Eg, Eb. exact Hw.
Qed.

(** A write either changes nothing or stores three checked values. *)
Lemma set_rgb_in_range (w w' : world) (buf : string) (count a : Z) :
  mdss_livedisplay_set_rgb PTR buf count w = Returns a w' ->
  in_range w -> in_range w'.
Proof.
  intros H Hw.
  destruct (sscanf_d_d_d buf 0 0 0) as [n [[vr vg] vb]] eqn:Hs.
  destruct (sscanf_range _ _ _ _ _ Hs) as ((Rr & Rg & Rb) & _).
  revert H. unfold mdss_livedisplay_set_rgb. cbv beta iota delta [is_null].
  destruct (count >? 19); [intros H; injection H as <- <-; exact Hw |].
  rewrite Hs. unfold bind at 1, get_ctx at 1.
  destruct (Z_lt_le_dec 32768 vr) as [Hr | Hr].
  { rewrite range_check_fails by exact Hr. intros H; injection H as <- <-; exact Hw. }
  rewrite (range_check_passes vr) by lia.
  destruct (Z_lt_le_dec 32768 vg) as [Hg | Hg].
  { rewrite range_check_fails by exact Hg. intros H; injection H as <- <-; exact Hw. }
  rewrite (range_check_passes vg) by lia.
  destruct (Z_lt_le_dec 32768 vb) as [Hb | Hb].
  { rewrite range_check_fails by exact Hb. intros H; injection H as <- <-; exact Hw. }
  rewrite (range_check_passes vb) by lia.
  clear Hw.
  destruct w as [wi wc [[xr xg xb xm xl [xp] xq xu] |] wp wm wk ww];
    run; crunch; intros H; try discriminate H;
    inversion H; subst; clear H;
    intros x Hx; cbv [livedisplay] in Hx; inversion Hx; subst; clear Hx;
    unfold rgb_in_range; cbv [r g b]; lia.
Qed.

Lemma step_in_range (o : op) (w w' : world) :
  step o w = Returns tt w' -> in_range w -> in_range w'.
Proof.
  destruct o as [rc | buf count | | mask | | c]; unfold step, bind; intros H.
  - destruct (mdss_livedisplay_create_sysfs PTR rc w) as [a w1 | |] eqn:E;
      try discriminate H. injection H as <-.
    apply same_rgb_in_range. exact (create_sysfs_same_rgb _ _ _ _ E).
  - destruct (mdss_livedisplay_set_rgb PTR buf count w) as [a w1 | |] eqn:E;
      try discriminate H. injection H as <-.
    exact (set_rgb_in_range _ _ _ _ _ E).
  - destruct (mdss_livedisplay_get_rgb PTR w) as [a w1 | |] eqn:E;
      try discriminate H. injection H as <-.
    apply same_rgb_in_range. exact (get_rgb_same_rgb _ _ _ E).
  - unfold get_ctx in H.
    apply same_rgb_in_range. exact (update_same_rgb _ _ _ _ H).
  - destruct (process_one_work w) as [a w1 | |] eqn:E;
      try discriminate H. injection H as <-.
    apply same_rgb_in_range. exact (process_one_work_same_rgb _ _ _ E).
  - injection H as <-. intros Hw x Hx. exact (Hw x Hx).
Qed.

(** C8.  In every state reachable from initialization, red, green and blue
    lie in [0, 32768]. *)
Theorem reachable_rgb_in_range (w : world) (x : mdss_livedisplay_ctx) :
  reachable w ->
  livedisplay w = Some x ->
  0 <= r x <= 32768 /\ 0 <= g x <= 32768 /\ 0 <= b x <= 32768.
Proof.
  intros Hreach. revert x.
  change (in_range w).
  induction Hreach as [w0 w kz q Hinit | w w' o _ IH Hstep].
  - revert Hinit. unfold mdss_livedisplay_parse_dt. cbv beta iota delta [is_null].
    destruct kz; [discriminate |].
    intros H; injection H as <-. intros x Hx.
    cbv [set_livedisplay livedisplay] in Hx. injection Hx as <-.
    unfold rgb_in_range. cbv [r g b]. lia.
  - exact (step_in_range o w w' Hstep IH).
Qed.

(** C9 (as amended).  A write of at most 19 bytes from which fewer than
    three integers are converted, each converted one being at most 32768,
    succeeds: it returns [count], stores the converted values, stores 0 in
    every channel that was not converted (whatever it held before), ORs
    [MODE_RGB] into the pending mask and leaves the work item pending. *)
Theorem set_rgb_unparsed_channels_are_zero
    (w : world) (x : mdss_livedisplay_ctx) (buf : string) (count n vr vg vb : Z) :
  ready w x ->
  count <= 19 ->
  sscanf_d_d_d buf 0 0 0 = (n, (vr, vg, vb)) ->
  n < 3 ->
  vr <= 32768 -> vg <= 32768 ->
  exists x',
    mdss_livedisplay_set_rgb PTR buf count w =
      Returns count (set_livedisplay w (Some x')) /\
    r x' = vr /\ g x' = vg /\ b x' = 0 /\
    (n < 2 -> g x' = 0) /\ (n < 1 -> r x' = 0) /\
    updated x' = Z.lor (updated x) MODE_RGB /\
    pending (update_work x') = true.
Proof.
  intros Hready Hc Hs Hn Hr Hg.
  destruct (sscanf_range _ _ _ _ _ Hs) as (_ & _ & Zb & Zg & Zr).
  eexists. split.
  - apply (set_rgb_stores w x buf count n vr vg vb); try assumption; lia.
  - cbv [r g b updated update_work pending]. repeat split; auto.
Qed.

(** *** Coalescing *)

Lemma write_all_app (l1 l2 : list (string * Z)) : forall w,
  write_all (l1 ++ l2) w = bind (write_all l1) (fun _ => write_all l2) w.
Proof.
  induction l1 as [| [buf count] l1 IH]; intros w; [reflexivity |].
  simpl. unfold bind.
  destruct (mdss_livedisplay_set_rgb PTR buf count w) as [a w1 | |];
    [| reflexivity | reflexivity].
  rewrite IH. reflexivity.
Qed.

Lemma accepted_spec (buf : string) (count : Z) :
  accepted buf count = true ->
  exists n vr vg vb,
    sscanf_d_d_d buf 0 0 0 = (n, (vr, vg, vb)) /\
    (count >? 19) = false /\ vr <= 32768 /\ vg <= 32768 /\ vb <= 32768.
Proof.
  unfold accepted.
  destruct (sscanf_d_d_d buf 0 0 0) as [n [[vr vg] vb]].
  intros H. apply andb_prop in H. destruct H as (H & Hb).
  apply andb_prop in H. destruct H as (H & Hg).
  apply andb_prop in H. destruct H as (Hc & Hr).
  exists n, vr, vg, vb. repeat split; try (apply Z.leb_le; assumption).
  destruct (count >? 19); [discriminate | reflexivity].
Qed.

(** Accepted writes keep the context ready, its owner, and everything
    outside the context. *)
Lemma write_all_accepted (calls : list (string * Z)) : forall w x,
  ready w x ->
  forallb (fun c => accepted (fst c) (snd c)) calls = true ->
  exists x',
    write_all calls w = Returns tt (set_livedisplay w (Some x')) /\
    ready (set_livedisplay w (Some x')) x' /\ mfd x' = mfd x.
Proof.
  induction calls as [| [buf count] calls IH]; intros w x Hready Hall.
  - exists x. destruct Hready as (Hx & Hl & Hq).
    destruct w as [wi wc wl wp wm wk ww]. simpl in Hx. subst wl.
    repeat split; assumption.
  - simpl in Hall. apply andb_prop in Hall. destruct Hall as (Hacc & Hall).
    destruct (accepted_spec _ _ Hacc) as (n & vr & vg & vb & Hs & Hc & Hr & Hg & Hb).
    pose proof (set_rgb_stores w x buf count n vr vg vb Hready Hc Hs Hr Hg Hb) as E.
    set (x1 := mk_ctx vr vg vb (mfd x) false (mk_work true) PTR
                 (Z.lor (updated x) MODE_RGB)) in *.
    destruct (IH (set_livedisplay w (Some x1)) x1) as (x' & E' & R' & M');
      [repeat split | exact Hall |].
    exists x'. simpl write_all. unfold bind. rewrite E.
    destruct w as [wi wc wl wp wm wk ww]. exact (conj E' (conj R' M')).
Qed.

Lemma land_lor_same (u m : Z) : Z.land (Z.lor u m) m = m.
Proof.
  apply Z.bits_inj'. intros k Hk.
  rewrite Z.land_spec, Z.lor_spec.
  destruct (Z.testbit u k), (Z.testbit m k); reflexivity.
Qed.

(** The queue's thread on a queued item, interactive panel, RGB pending:
    the worker submits the command of the stored triple and leaves the
    context unlocked, with nothing pending and nothing queued. *)
Lemma process_one_work_applies
    (w : world) (x : mdss_livedisplay_ctx) (cp : mdss_dsi_ctrl_pdata) :
  livedisplay w = Some x ->
  pending (update_work x) = true ->
  lock x = false ->
  mfd x = PTR ->
  ctrl w = Some cp ->
  mdss_panel_is_power_on_interactive (panel_power_state cp) = true ->
  (Z.land (updated x) MODE_RGB =? 0) = false ->
  exists w',
    process_one_work w = Returns true w' /\
    pcc_calls w' = pcc_calls w ++ [pcc_command (index w) x] /\
    livedisplay w' =
      Some (mk_ctx (r x) (g x) (b x) PTR false (mk_work false) (wq x) 0).
Proof.
  intros Hx Hq Hl Hm Hc Hp Hland.
  destruct w as [wi wc wl wp wm wk ww].
  destruct x as [xr xg xb xm xl [xp] xq xu].
  simpl in Hx, Hq, Hl, Hm, Hc, Hland. subst wl xp xl xm wc.
  unfold pcc_command. run. rewrite Hp. run. rewrite Hland. run.
  destruct ((xr =? 32768) && (xg =? 32768) && (xb =? 32768));
    run; pipeline_answer; eexists; repeat split.
Qed.

Lemma process_one_work_idle (w : world) (x : mdss_livedisplay_ctx) :
  livedisplay w = Some x ->
  pending (update_work x) = false ->
  process_one_work w = Returns false w.
Proof.
  intros Hx Hq. unfold process_one_work. rewrite Hx, Hq. reflexivity.
Qed.

(** A queued run when the panel's control data does not resolve: the item
    stops being pending and nothing else changes. *)
Lemma process_one_work_no_ctrl (w : world) (x : mdss_livedisplay_ctx) :
  livedisplay w = Some x ->
  pending (update_work x) = true ->
  mfd x = PTR ->
  ctrl w = None ->
  process_one_work w =
  Returns true (set_livedisplay w (Some (set_update_work x (mk_work false)))).
Proof.
  intros Hx Hq Hm Hc.
  destruct w as [wi wc wl wp wm wk ww].
  destruct x as [xr xg xb xm xl [xp] xq xu].
  simpl in Hx, Hq, Hm, Hc. subst wl xp xm wc.
  reflexivity.
Qed.

(** A write that is not accepted returns [-EINVAL] and changes nothing. *)
Lemma set_rgb_not_accepted (w : world) (buf : string) (count : Z) :
  accepted buf count = false ->
  mdss_livedisplay_set_rgb PTR buf count w = Returns (- EINVAL) w.
Proof.
  unfold accepted. intros Hacc.
  destruct (sscanf_d_d_d buf 0 0 0) as [n [[vr vg] vb]] eqn:Hs.
  destruct (sscanf_range _ _ _ _ _ Hs) as ((Rr & Rg & Rb) & _).
  unfold mdss_livedisplay_set_rgb. cbv beta iota delta [is_null].
  destruct (count >? 19); [reflexivity |].
  rewrite Hs. unfold bind at 1, get_ctx at 1.
  destruct (Z_lt_le_dec 32768 vr) as [Hr | Hr].
  { rewrite range_check_fails by exact Hr. reflexivity. }
  rewrite (range_check_passes vr) by lia.
  destruct (Z_lt_le_dec 32768 vg) as [Hg | Hg].
  { rewrite range_check_fails by exact Hg. reflexivity. }
  rewrite (range_check_passes vg) by lia.
  destruct (Z_lt_le_dec 32768 vb) as [Hb | Hb].
  { rewrite range_check_fails by exact Hb. reflexivity. }
  apply Z.leb_le in Hr, Hg, Hb. rewrite Hr, Hg, Hb in Hacc. discriminate Hacc.
Qed.

(** Writes that are all rejected leave the state as it was. *)
Lemma write_all_rejected (calls : list (string * Z)) : forall w,
  forallb (fun c => negb (accepted (fst c) (snd c))) calls = true ->
  write_all calls w = Returns tt w.
Proof.
  induction calls as [| [buf count] calls IH]; intros w Hall; [reflexivity |].
  simpl in Hall. apply andb_prop in Hall. destruct Hall as (Hrej & Hall).
  apply negb_true_iff in Hrej.
  simpl write_all. unfold bind. rewrite (set_rgb_not_accepted w _ _ Hrej).
  exact (IH w Hall).
Qed.

(** Any writes, accepted or not, keep the context ready, its owner, and
    everything outside the context. *)
Lemma write_all_any (calls : list (string * Z)) : forall w x,
  ready w x ->
  exists x',
    write_all calls w = Returns tt (set_livedisplay w (Some x')) /\
    ready (set_livedisplay w (Some x')) x' /\ mfd x' = mfd x.
Proof.
  induction calls as [| [buf count] calls IH]; intros w x Hready.
  - exists x. destruct Hready as (Hx & Hl & Hq).
    destruct w as [wi wc wl wp wm wk ww]. simpl in Hx. subst wl.
    repeat split; assumption.
  - simpl write_all. unfold bind.
    destruct (accepted buf count) eqn:Hacc.
    + destruct (accepted_spec _ _ Hacc) as (n & vr & vg & vb & Hs & Hc & Hr & Hg & Hb).
      pose proof (set_rgb_stores w x buf count n vr vg vb Hready Hc Hs Hr Hg Hb) as E.
      set (x1 := mk_ctx vr vg vb (mfd x) false (mk_work true) PTR
                   (Z.lor (updated x) MODE_RGB)) in *.
      destruct (IH (set_livedisplay w (Some x1)) x1) as (x' & E' & R' & M');
        [repeat split |].
      exists x'. rewrite E.
      destruct w as [wi wc wl wp wm wk ww]. exact (conj E' (conj R' M')).
    + rewrite (set_rgb_not_accepted w _ _ Hacc). exact (IH w x Hready).
Qed.

(** A queued run on an interactive panel with no RGB bit pending: nothing
    is submitted, the mask is cleared all the same. *)
Lemma process_one_work_skips
    (w : world) (x : mdss_livedisplay_ctx) (cp : mdss_dsi_ctrl_pdata) :
  livedisplay w = Some x ->
  pending (update_work x) = true ->
  lock x = false ->
  mfd x = PTR ->
  ctrl w = Some cp ->
  mdss_panel_is_power_on_interactive (panel_power_state cp) = true ->
  (Z.land (updated x) MODE_RGB =? 0) = true ->
  process_one_work w =
  Returns true
    (set_livedisplay w
       (Some (mk_ctx (r x) (g x) (b x) PTR false (mk_work false) (wq x) 0))).
Proof.
  intros Hx Hq Hl Hm Hc Hp Hland.
  destruct w as [wi wc wl wp wm wk ww].
  destruct x as [xr xg xb xm xl [xp] xq xu].
  simpl in Hx, Hq, Hl, Hm, Hc, Hland. subst wl xp xl xm wc.
  run. rewrite Hp. run. rewrite Hland. reflexivity.
Qed.

(** A queued run on a panel that is not interactive: the item stops being
    pending and nothing else changes. *)
Lemma process_one_work_off
    (w : world) (x : mdss_livedisplay_ctx) (cp : mdss_dsi_ctrl_pdata) :
  livedisplay w = Some x ->
  pending (update_work x) = true ->
  mfd x = PTR ->
  ctrl w = Some cp ->
  mdss_panel_is_power_on_interactive (panel_power_state cp) = false ->
  process_one_work w =
  Returns true (set_livedisplay w (Some (set_update_work x (mk_work false)))).
Proof.
  intros Hx Hq Hm Hc Hp.
  destruct w as [wi wc wl wp wm wk ww].
  destruct x as [xr xg xb xm xl [xp] xq xu].
  simpl in Hx, Hq, Hm, Hc. subst wl xp xm wc.
  run. rewrite Hp. reflexivity.
Qed.

(** C10 (as amended).  After any writes of which at least one is accepted,
    made before the worker runs, the work item is queued once, whatever
    the panel's state: the queue's thread runs the worker one time and then
    finds nothing to run.  The writes themselves submit nothing.  That one
    run submits exactly one command, carrying the triple of the last
    accepted write, when the panel's control data resolves, its power state
    is interactive and [MODE_RGB] is a non-zero bit; otherwise it submits
    nothing.  So no earlier triple ever reaches the pipeline. *)
Theorem set_rgb_calls_coalesce
    (w : world) (x : mdss_livedisplay_ctx)
    (before after : list (string * Z)) (buf : string) (count n vr vg vb : Z) :
  ready w x ->
  mfd x = PTR ->
  accepted buf count = true ->
  forallb (fun c => negb (accepted (fst c) (snd c))) after = true ->
  sscanf_d_d_d buf 0 0 0 = (n, (vr, vg, vb)) ->
  exists w1 w2 x2,
    write_all (before ++ (buf, count) :: after) w = Returns tt w1 /\
    pcc_calls w1 = pcc_calls w /\
    process_one_work w1 = Returns true w2 /\
    process_one_work w2 = Returns false w2 /\
    livedisplay w2 = Some x2 /\ r x2 = vr /\ g x2 = vg /\ b x2 = vb /\
    pcc_calls w2 =
      pcc_calls w ++
      match ctrl w with
      | Some cp =>
          if mdss_panel_is_power_on_interactive (panel_power_state cp)
             && negb (MODE_RGB =? 0)
          then [pcc_command (index w) x2]
          else []
      | None => []
      end.
Proof.
  intros Hready Hm Hacc Hafter Hs.
  destruct (write_all_any before w x Hready) as (x1 & E1 & R1 & M1).
  destruct (accepted_spec _ _ Hacc) as (n' & vr' & vg' & vb' & Hs' & Hcnt & Hr & Hg & Hb).
  rewrite Hs in Hs'. injection Hs' as <- <- <- <-.
  pose proof (set_rgb_stores _ x1 buf count n vr vg vb R1 Hcnt Hs Hr Hg Hb) as E2.
  rewrite M1, Hm in E2.
  set (x2 := mk_ctx vr vg vb PTR false (mk_work true) PTR
               (Z.lor (updated x1) MODE_RGB)) in *.
  set (w1 := set_livedisplay (set_livedisplay w (Some x1)) (Some x2)) in *.
  assert (Ew : write_all (before ++ (buf, count) :: after) w = Returns tt w1).
  { rewrite write_all_app. unfold bind at 1. rewrite E1.
    simpl write_all. unfold bind at 1. rewrite E2.
    exact (write_all_rejected after w1 Hafter). }
  assert (Hland : Z.land (updated x2) MODE_RGB = MODE_RGB).
  { unfold x2. cbv [updated]. apply land_lor_same. }
  assert (G : exists w2 x3,
             process_one_work w1 = Returns true w2 /\
             livedisplay w2 = Some x3 /\
             pending (update_work x3) = false /\
             r x3 = vr /\ g x3 = vg /\ b x3 = vb /\
             pcc_calls w2 =
               pcc_calls w ++
               match ctrl w with
               | Some cp =>
                   if mdss_panel_is_power_on_interactive (panel_power_state cp)
                      && negb (MODE_RGB =? 0)
                   then [pcc_command (index w) x3]
                   else []
               | None => []
               end).
  { destruct (ctrl w) as [cp |] eqn:Hc.
    - destruct (mdss_panel_is_power_on_interactive (panel_power_state cp)) eqn:Hp.
      + destruct (MODE_RGB =? 0) eqn:Hz.
        * assert (Hl0 : (Z.land (updated x2) MODE_RGB =? 0) = true)
            by (rewrite Hland; exact Hz).
          pose proof (process_one_work_skips w1 x2 cp eq_refl eq_refl eq_refl eq_refl
                        Hc Hp Hl0) as E3.
          eexists. eexists. split; [exact E3 |].
          split; [reflexivity |]. repeat split.
          symmetry. apply app_nil_r.
        * assert (Hl1 : (Z.land (updated x2) MODE_RGB =? 0) = false)
            by (rewrite Hland; exact Hz).
          destruct (process_one_work_applies w1 x2 cp eq_refl eq_refl eq_refl eq_refl
                      Hc Hp Hl1) as (w2 & E3 & K3 & L3).
          exists w2. eexists. split; [exact E3 |].
          split; [exact L3 |]. repeat split. exact K3.
      + pose proof (process_one_work_off w1 x2 cp eq_refl eq_refl eq_refl Hc Hp) as E3.
        eexists. eexists. split; [exact E3 |].
        split; [reflexivity |]. repeat split.
        symmetry. apply app_nil_r.
    - pose proof (process_one_work_no_ctrl w1 x2 eq_refl eq_refl eq_refl Hc) as E3.
      eexists. eexists. split; [exact E3 |].
      split; [reflexivity |]. repeat split.
      symmetry. apply app_nil_r. }
  destruct G as (w2 & x3 & E3 & L3 & Q3 & Hr3 & Hg3 & Hb3 & K3).
  exists w1, w2, x3.
  split; [exact Ew |]. split; [reflexivity |]. split; [exact E3 |].
  split; [exact (process_one_work_idle w2 x3 L3 Q3) |].
  split; [exact L3 |]. repeat split; assumption.
Qed.

End Properties.

(** ** The theorems at concrete inputs, on the sample platform *)

(** C1, counterexample: non-numeric text is not rejected, and a number is
    judged by the 32-bit value it leaves.  ["abc"] converts nothing, the
    three variables keep their 0, the range checks pass: the call returns 3,
    the stored triple (100, 200, 300) becomes (0, 0, 0), [MODE_RGB] is
    marked pending and the work item is queued.  ["4294967297 5 6"] leaves
    1 in the red variable: the call returns 14 and stores (1, 5, 6). *)
Lemma set_rgb_stores_non_numeric_text :
  mdss_livedisplay_set_rgb PTR "abc" 3 (panel_with 1 [] warm) =
    Returns 3 (panel_with 1 [] (mk_ctx 0 0 0 PTR false (mk_work true) PTR 32)) /\
  3 <> - EINVAL /\
  mdss_livedisplay_set_rgb PTR "4294967297 5 6" 14 (panel_with 1 [] warm) =
    Returns 14 (panel_with 1 [] (mk_ctx 1 5 6 PTR false (mk_work true) PTR 32)) /\
  14 <> - EINVAL.
Proof.
  split; [vm_compute; reflexivity |]. split; [discriminate |].
  split; [vm_compute; reflexivity | discriminate].
Qed.

Lemma set_rgb_rejects_witness :
  mdss_livedisplay_set_rgb PTR "40000 0 0" 9 (panel_with 1 [] warm) =
    Returns (- EINVAL) (panel_with 1 [] warm) /\
  mdss_livedisplay_set_rgb PTR "1 2 3 4 5 6 7 8 9 10" 20 (panel_with 1 [] warm) =
    Returns (- EINVAL) (panel_with 1 [] warm).
Proof.
  split.
  - apply (@set_rgb_rejects_out_of_range_or_too_long msm8974 _ _ _ 3 40000 0 0).
    + vm_compute; reflexivity.
    + right; left; lia.
  - apply (@set_rgb_rejects_out_of_range_or_too_long msm8974 _ _ _ 3 1 2 3).
    + vm_compute; reflexivity.
    + left; lia.
Defined.

Lemma set_rgb_then_get_rgb_witness :
  exists w' x',
    mdss_livedisplay_set_rgb PTR (rgb_text 25828 17347 8192)
        (strlen (rgb_text 25828 17347 8192)) (panel_with 1 [] default_ctx) =
      Returns (strlen (rgb_text 25828 17347 8192)) w' /\
    livedisplay w' = Some x' /\ r x' = 25828 /\ g x' = 17347 /\ b x' = 8192 /\
    mdss_livedisplay_get_rgb PTR w' =
      Returns (strlen (rgb_text 25828 17347 8192) + 1,
               (rgb_text 25828 17347 8192 ++ String (ascii_of_nat 10) EmptyString)%string) w' /\
    sscanf_d_d_d (rgb_text 25828 17347 8192 ++ String (ascii_of_nat 10) EmptyString) 0 0 0 =
      (3, (25828, 17347, 8192)).
Proof.
  apply (@set_rgb_then_get_rgb msm8974 (panel_with 1 [] default_ctx) default_ctx).
  - repeat split.
  - lia.
  - lia.
  - lia.
Defined.

Lemma worker_not_interactive_witness :
  mdss_livedisplay_worker (panel_with 0 [] (mk_ctx 1 2 3 PTR false (mk_work false) PTR 32)) =
    Returns tt (panel_with 0 [] (mk_ctx 1 2 3 PTR false (mk_work false) PTR 32)).
Proof.
  apply (@worker_not_interactive msm8974 _
           (mk_ctx 1 2 3 PTR false (mk_work false) PTR 32) (mk_ctrl 0));
    reflexivity.
Defined.


Lemma update_pcc_operation_flags_witness :
  exists rc w' cmd,
    mdss_livedisplay_update_pcc PTR
      (panel_with 1 [] (mk_ctx 32768 32768 32768 PTR true (mk_work false) PTR 32)) =
      Returns rc w' /\
    pcc_calls w' = [] ++ [cmd] /\
    (32768 = 32768 /\ 32768 = 32768 /\ 32768 = 32768 ->
       mdp_pcc_cfg_data.ops cmd = Z.lor 8 4) /\
    (~ (32768 = 32768 /\ 32768 = 32768 /\ 32768 = 32768) ->
       mdp_pcc_cfg_data.ops cmd = Z.lor 1 4) /\
    (Z.lor 8 4 <> Z.lor 1 4 ->
       (mdp_pcc_cfg_data.ops cmd = Z.lor 8 4 <->
        32768 = 32768 /\ 32768 = 32768 /\ 32768 = 32768)).
Proof.
  exact (@update_pcc_operation_flags msm8974
           (panel_with 1 [] (mk_ctx 32768 32768 32768 PTR true (mk_work false) PTR 32))
           (mk_ctx 32768 32768 32768 PTR true (mk_work false) PTR 32)
           eq_refl eq_refl).
Defined.

Lemma update_pcc_command_witness :
  mdss_livedisplay_update_pcc NULL
    (panel_with 1 [-14] (mk_ctx 25828 17347 8192 PTR true (mk_work false) PTR 32)) =
    Returns (- ENODEV)
      (panel_with 1 [-14] (mk_ctx 25828 17347 8192 PTR true (mk_work false) PTR 32)) /\
  exists rc w' cmd,
    mdss_livedisplay_update_pcc PTR
      (panel_with 1 [-14] (mk_ctx 25828 17347 8192 PTR true (mk_work false) PTR 32)) =
      Returns rc w' /\
    pcc_calls w' = [] ++ [cmd] /\
    @mdss_mdp_user_pcc_config msm8974 [-14] cmd = (rc, mdp w') /\
    mdp_pcc_cfg_data.block cmd = wrap32 (0 + 16) /\
    mdp_pcc_cfg_data.r cmd = mdp_pcc_coeff.mk 0 25828 0 0 0 0 0 0 0 0 0 0 /\
    mdp_pcc_cfg_data.g cmd = mdp_pcc_coeff.mk 0 0 17347 0 0 0 0 0 0 0 0 0 /\
    mdp_pcc_cfg_data.b cmd = mdp_pcc_coeff.mk 0 0 0 8192 0 0 0 0 0 0 0 0.
Proof.
  exact (@update_pcc_command msm8974
           (panel_with 1 [-14] (mk_ctx 25828 17347 8192 PTR true (mk_work false) PTR 32))
           (mk_ctx 25828 17347 8192 PTR true (mk_work false) PTR 32)
           eq_refl eq_refl).
Defined.

(** C7, counterexample: without a panel-info handle the result is
    [-ENODEV], which is not the invalid-argument code; and when [kzalloc]
    returns NULL no error code is returned at all, the first store goes
    through the NULL pointer. *)
Lemma parse_dt_error_codes :
  mdss_livedisplay_parse_dt NULL PTR PTR (fresh 1 []) = Returns (- ENODEV) (fresh 1 []) /\
  - ENODEV <> - EINVAL /\
  mdss_livedisplay_parse_dt PTR NULL PTR (fresh 1 []) = Oops.
Proof. repeat split. discriminate. Qed.

(** The panel after initialization, registration and one write. *)
Lemma reachable_rgb_in_range_witness :
  0 <= r (mk_ctx 25828 17347 8192 PTR false (mk_work true) PTR 32) <= 32768 /\
  0 <= g (mk_ctx 25828 17347 8192 PTR false (mk_work true) PTR 32) <= 32768 /\
  0 <= b (mk_ctx 25828 17347 8192 PTR false (mk_work true) PTR 32) <= 32768.
Proof.
  apply (@reachable_rgb_in_range msm8974
           (panel_with 1 [] (mk_ctx 25828 17347 8192 PTR false (mk_work true) PTR 32))).
  - apply (@reachable_step msm8974 (panel_with 1 [] default_ctx) _
             (op_set_rgb "25828 17347 8192" 16)).
    + apply (@reachable_step msm8974
               (panel_with 1 []
                  (mk_ctx 32768 32768 32768 NULL false (mk_work false) PTR 0)) _
               (op_create_sysfs 0)).
      * apply (@reachable_init msm8974 (fresh 1 []) _ PTR PTR). reflexivity.
      * reflexivity.
    + vm_compute; reflexivity.
  - reflexivity.
Defined.

(** C9, counterexample: from ["40000"] one integer is converted, fewer than
    three, and the text is 5 bytes long; the call does not succeed, it
    returns [-EINVAL] and stores nothing. *)
Lemma set_rgb_partial_text_rejected :
  sscanf_d_d_d "40000" 0 0 0 = (1, (40000, 0, 0)) /\
  mdss_livedisplay_set_rgb PTR "40000" 5 (panel_with 1 [] warm) =
    Returns (- EINVAL) (panel_with 1 [] warm).
Proof. split; vm_compute; reflexivity. Qed.

(** ["7"] converts red only: green and blue, 200 and 300 before, are 0. *)
Lemma set_rgb_unparsed_channels_are_zero_witness :
  exists x',
    mdss_livedisplay_set_rgb PTR "7" 1 (panel_with 1 [] warm) =
      Returns 1 (set_livedisplay (panel_with 1 [] warm) (Some x')) /\
    r x' = 7 /\ g x' = 0 /\ b x' = 0 /\
    (1 < 2 -> g x' = 0) /\ (1 < 1 -> r x' = 0) /\
    updated x' = Z.lor 0 32 /\
    pending (update_work x') = true.
Proof.
  apply (@set_rgb_unparsed_channels_are_zero msm8974 (panel_with 1 [] warm) warm
           "7" 1 1 7 0 0).
  - repeat split.
  - lia.
  - vm_compute; reflexivity.
  - lia.
  - lia.
  - lia.
Defined.

(** C10, counterexample.  Two writes complete, then the queue's thread
    runs the worker once, on a panel whose power state is off: that run
    submits no command (and keeps [MODE_RGB] pending), and there is no
    further run, so no worker execution applies the update.  And when the
    writes that complete are all rejected, no run is queued at all. *)
Lemma coalesced_run_on_panel_off :
  bind (write_all [("1 2 3"%string, 5); ("4 5 6"%string, 5)])
       (fun _ => process_one_work) (panel_with 0 [] default_ctx) =
    Returns true (panel_with 0 [] (mk_ctx 4 5 6 PTR false (mk_work false) PTR 32)) /\
  pcc_calls (panel_with 0 [] (mk_ctx 4 5 6 PTR false (mk_work false) PTR 32)) = [] /\
  process_one_work (panel_with 0 [] (mk_ctx 4 5 6 PTR false (mk_work false) PTR 32)) =
    Returns false (panel_with 0 [] (mk_ctx 4 5 6 PTR false (mk_work false) PTR 32)) /\
  bind (write_all [("40000 0 0"%string, 9); ("1 2 3"%string, 20)])
       (fun _ => process_one_work) (panel_with 1 [] default_ctx) =
    Returns false (panel_with 1 [] default_ctx).
Proof. repeat split; vm_compute; reflexivity. Qed.

(** Interactive panel; a rejected write before and one after the last
    accepted one. *)
Lemma set_rgb_calls_coalesce_witness :
  exists w1 w2 x2,
    write_all ([("1 2 3"%string, 5); ("40000 0 0"%string, 9)] ++
               ("4 5 6"%string, 5) :: [("7 8 9"%string, 20)])
      (panel_with 1 [] default_ctx) = Returns tt w1 /\
    pcc_calls w1 = [] /\
    process_one_work w1 = Returns true w2 /\
    process_one_work w2 = Returns false w2 /\
    livedisplay w2 = Some x2 /\ r x2 = 4 /\ g x2 = 5 /\ b x2 = 6 /\
    pcc_calls w2 = [] ++ [@pcc_command msm8974 0 x2].
Proof.
  apply (@set_rgb_calls_coalesce msm8974 (panel_with 1 [] default_ctx) default_ctx
           [("1 2 3"%string, 5); ("40000 0 0"%string, 9)]
           [("7 8 9"%string, 20)] "4 5 6" 5 3 4 5 6).
  - repeat split.
  - reflexivity.
  - vm_compute; reflexivity.
  - vm_compute; reflexivity.
  - vm_compute; reflexivity.
Defined.

(** ** The spec's two scenarios, run on the sample platform *)

Example rgb_text_calibrated :
  rgb_text 25828 17347 8192 = "25828 17347 8192"%string.
Proof. vm_compute. reflexivity. Qed.

(** From the default context, the write ["25828 17347 8192"] followed by one
    run of the queue's thread: one ENABLE | WRITE command (1 | 4 = 5) for
    block 0 + 16, with the three values on the diagonal. *)
Example scenario_calibrate :
  bind (mdss_livedisplay_set_rgb PTR "25828 17347 8192" 16)
       (fun _ => process_one_work) (panel_with 1 [] default_ctx) =
  Returns true
    (@mk_world msm8974 0 (Some (mk_ctrl 1))
       (Some (mk_ctx 25828 17347 8192 PTR false (mk_work false) PTR 0))
       (mdp_pcc_cfg_data.mk 16 5
          (mdp_pcc_coeff.mk 0 25828 0 0 0 0 0 0 0 0 0 0)
          (mdp_pcc_coeff.mk 0 0 17347 0 0 0 0 0 0 0 0 0)
          (mdp_pcc_coeff.mk 0 0 0 8192 0 0 0 0 0 0 0 0))
       []
       [mdp_pcc_cfg_data.mk 16 5
          (mdp_pcc_coeff.mk 0 25828 0 0 0 0 0 0 0 0 0 0)
          (mdp_pcc_coeff.mk 0 0 17347 0 0 0 0 0 0 0 0 0)
          (mdp_pcc_coeff.mk 0 0 0 8192 0 0 0 0 0 0 0 0)]
       0%nat).
Proof. vm_compute. reflexivity. Qed.

(** ["40000 0 0"] is rejected and nothing is scheduled. *)
Example scenario_out_of_range :
  mdss_livedisplay_set_rgb PTR "40000 0 0" 9 (panel_with 1 [] default_ctx) =
  Returns (- EINVAL) (panel_with 1 [] default_ctx).
Proof. vm_compute. reflexivity. Qed.

(** ** Further properties of the driver *)

Section Coverage.

Context {P : Platform}.

Lemma set_livedisplay_twice (w : world) (u v : option mdss_livedisplay_ctx) :
  set_livedisplay (set_livedisplay w u) v = set_livedisplay w v.
Proof. reflexivity. Qed.

(** X1.  A worker run on a context that has its owner and whose mutex is
    free always returns, whatever the panel's state and the pending mask;
    it never trips the lock assertion of the hardware programmer, it
    releases the mutex, and it leaves red, green and blue as they were. *)
Theorem worker_run_never_warns (w : world) (x : mdss_livedisplay_ctx) :
  livedisplay w = Some x ->
  mfd x = PTR ->
  lock x = false ->
  exists w' x',
    mdss_livedisplay_worker w = Returns tt w' /\
    warnings w' = warnings w /\
    livedisplay w' = Some x' /\ lock x' = false /\
    r x' = r x /\ g x' = g x /\ b x' = b x.
Proof.
  intros Hx Hm Hl.
  destruct w as [wi wc wl wp wm wk ww].
  destruct x as [xr xg xb xm xl xw xq xu].
  simpl in Hx, Hm, Hl. subst wl xm xl.
  run; crunch; eexists; eexists; repeat split.
Qed.

(** X2.  The hardware programmer called on a context does not stop at its
    lock assertion: without the mutex held it counts one warning, and in
    both cases it goes on to submit the command of the stored triple. *)
Theorem update_pcc_lock_assertion (w : world) (x : mdss_livedisplay_ctx) :
  livedisplay w = Some x ->
  mfd x = PTR ->
  exists rc w',
    mdss_livedisplay_update_pcc PTR w = Returns rc w' /\
    warnings w' = (if lock x then warnings w else S (warnings w)) /\
    pcc_calls w' = pcc_calls w ++ [pcc_command (index w) x] /\
    livedisplay w' = Some x.
Proof.
  intros Hx Hm.
  destruct w as [wi wc wl wp wm wk ww].
  destruct x as [xr xg xb xm xl xw xq xu].
  simpl in Hx, Hm. subst wl xm.
  unfold pcc_command. destruct xl; run;
    destruct ((xr =? 32768) && (xg =? 32768) && (xb =? 32768));
    run; pipeline_answer; eexists; eexists; repeat split.
Qed.

(** A request on a ready context: the mask is ORed in, the work item is
    pending, the mutex is free again, the rest is untouched. *)
Lemma update_runs (w : world) (x : mdss_livedisplay_ctx) (mask : Z) :
  ready w x ->
  mdss_livedisplay_update PTR mask w =
  Returns tt
    (set_livedisplay w
       (Some (mk_ctx (r x) (g x) (b x) (mfd x) false (mk_work true) PTR
                (Z.lor (updated x) mask)))).
Proof.
  intros (Hx & Hl & Hq).
  destruct w as [wi wc wl wp wm wk ww].
  destruct x as [xr xg xb xm xl [xp] xq xu].
  simpl in Hx, Hl, Hq. subst wl xl xq.
  run. destruct xp; reflexivity.
Qed.

(** X3.  Requests coalesce: on a ready context, a request for [m1] followed
    by a request for [m2] leaves exactly the state of one request for
    [m1 | m2]: both masks are pending, one work item is queued, and the
    context is ready for the next call with its triple unchanged. *)
Theorem update_requests_merge (w : world) (x : mdss_livedisplay_ctx) (m1 m2 : Z) :
  ready w x ->
  exists x',
    bind (mdss_livedisplay_update PTR m1)
         (fun _ => mdss_livedisplay_update PTR m2) w =
      Returns tt (set_livedisplay w (Some x')) /\
    mdss_livedisplay_update PTR (Z.lor m1 m2) w =
      Returns tt (set_livedisplay w (Some x')) /\
    ready (set_livedisplay w (Some x')) x' /\
    updated x' = Z.lor (updated x) (Z.lor m1 m2) /\
    pending (update_work x') = true /\
    r x' = r x /\ g x' = g x /\ b x' = b x /\ mfd x' = mfd x.
Proof.
  intros Hready.
  pose proof (update_runs w x m1 Hready) as E1.
  pose proof (update_runs w x (Z.lor m1 m2) Hready) as E12.
  set (x1 := mk_ctx (r x) (g x) (b x) (mfd x) false (mk_work true) PTR
               (Z.lor (updated x) m1)) in *.
  assert (R1 : ready (set_livedisplay w (Some x1)) x1) by (repeat split).
  pose proof (update_runs _ x1 m2 R1) as E2.
  rewrite set_livedisplay_twice in E2. cbv [x1 r g b mfd updated] in E2.
  fold (r x) (g x) (b x) (mfd x) (updated x) in E2.
  rewrite <- Z.lor_assoc in E2.
  eexists. split.
  - unfold bind. rewrite E1. exact E2.
  - split; [exact E12 |]. repeat split.
Qed.

(** X4.  The last write wins: on a ready context, two accepted writes in a
    row leave exactly the state the second one alone would leave (its
    triple stored, [MODE_RGB] pending, one work item queued). *)
Theorem set_rgb_last_write_wins
    (w : world) (x : mdss_livedisplay_ctx) (buf1 buf2 : string) (count1 count2 : Z) :
  ready w x ->
  accepted buf1 count1 = true ->
  accepted buf2 count2 = true ->
  exists w',
    mdss_livedisplay_set_rgb PTR buf2 count2 w = Returns count2 w' /\
    bind (mdss_livedisplay_set_rgb PTR buf1 count1)
         (fun _ => mdss_livedisplay_set_rgb PTR buf2 count2) w = Returns count2 w'.
Proof.
  intros Hready H1 H2.
  destruct (accepted_spec _ _ H1) as (n1 & r1 & g1 & b1 & S1 & C1 & Rr1 & Rg1 & Rb1).
  destruct (accepted_spec _ _ H2) as (n2 & r2 & g2 & b2 & S2 & C2 & Rr2 & Rg2 & Rb2).
  pose proof (set_rgb_stores w x buf1 count1 n1 r1 g1 b1 Hready C1 S1 Rr1 Rg1 Rb1) as E1.
  pose proof (set_rgb_stores w x buf2 count2 n2 r2 g2 b2 Hready C2 S2 Rr2 Rg2 Rb2) as E2.
  set (x1 := mk_ctx r1 g1 b1 (mfd x) false (mk_work true) PTR
               (Z.lor (updated x) MODE_RGB)) in *.
  assert (R1 : ready (set_livedisplay w (Some x1)) x1) by (repeat split).
  pose proof (set_rgb_stores _ x1 buf2 count2 n2 r2 g2 b2 R1 C2 S2 Rr2 Rg2 Rb2) as E12.
  rewrite set_livedisplay_twice in E12. cbv [x1 mfd updated] in E12.
  fold (mfd x) (updated x) in E12.
  rewrite <- Z.lor_assoc, Z.lor_diag in E12.
  eexists. split; [exact E2 |].
  unfold bind. rewrite E1. exact E12.
Qed.

(** Closes a goal about the state a call returned, on a state whose mutex
    is free. *)
Ltac after_call w Hfree :=
  let H := fresh "H" in
  destruct w as [wi wc [[xr xg xb xm xl [xp] xq xu] |] wp wm wk ww];
  [ pose proof (Hfree _ eq_refl) as H; cbv [lock] in H; subst xl | ];
  clear Hfree; run; crunch;
  intros H; try discriminate H;
  inversion H; subst; clear H.

Lemma step_lock_free (o : op) (w w' : world) :
  step o w = Returns tt w' -> lock_free w -> lock_free w'.
Proof.
  intros H Hfree. revert H.
  destruct o as [rc | buf count | | mask | | c]; unfold step;
    after_call w Hfree;
    intros x Hx; cbv [livedisplay] in Hx; try discriminate Hx;
    inversion Hx; subst; reflexivity.
Qed.

Lemma reachable_lock_free_aux (w : world) : reachable w -> lock_free w.
Proof.
  induction 1 as [w0 w kz q Hinit | w w' o _ IH Hstep].
  - revert Hinit. unfold mdss_livedisplay_parse_dt. cbv beta iota delta [is_null].
    destruct kz; [discriminate |].
    intros H; injection H as <-. intros x Hx.
    cbv [set_livedisplay livedisplay] in Hx. injection Hx as <-. reflexivity.
  - exact (step_lock_free o w w' Hstep IH).
Qed.

Lemma reachable_in_range_aux (w : world) : reachable w -> in_range w.
Proof.
  induction 1 as [w0 w kz q Hinit | w w' o _ IH Hstep].
  - revert Hinit. unfold mdss_livedisplay_parse_dt. cbv beta iota delta [is_null].
    destruct kz; [discriminate |].
    intros H; injection H as <-. intros x Hx.
    cbv [set_livedisplay livedisplay] in Hx. injection Hx as <-.
    unfold rgb_in_range. cbv [r g b]. lia.
  - exact (step_in_range o w w' Hstep IH).
Qed.

(** X5.  Every lock is matched by an unlock: in every state reachable from
    initialization the context's mutex is free. *)
Theorem reachable_mutex_free (w : world) (x : mdss_livedisplay_ctx) :
  reachable w ->
  livedisplay w = Some x ->
  lock x = false.
Proof. intros Hreach. exact (reachable_lock_free_aux w Hreach x). Qed.

(** X6.  From a reachable state no operation that returns trips the lock
    assertion: the hardware programmer only ever runs with the mutex
    held. *)
Theorem reachable_step_no_warning (o : op) (w w' : world) :
  reachable w ->
  step o w = Returns tt w' ->
  warnings w' = warnings w.
Proof.
  intros Hreach H. pose proof (reachable_lock_free_aux w Hreach) as Hfree.
  revert H.
  destruct o as [rc | buf count | | mask | | c]; unfold step;
    after_call w Hfree; reflexivity.
Qed.

(** X7.  In every reachable state, reading the attribute changes nothing
    and returns the text of the stored triple followed by a newline, at
    most 18 characters, which reads back as the stored triple. *)
Theorem reachable_get_rgb (w : world) (x : mdss_livedisplay_ctx) :
  reachable w ->
  livedisplay w = Some x ->
  exists len text,
    mdss_livedisplay_get_rgb PTR w = Returns (len, text) w /\
    text = (rgb_text (r x) (g x) (b x) ++ String (ascii_of_nat 10) EmptyString)%string /\
    len = strlen text /\ 0 < len <= 18 /\
    sscanf_d_d_d text 0 0 0 = (3, (r x, g x, b x)).
Proof.
  intros Hreach Hx.
  destruct (reachable_in_range_aux w Hreach x Hx) as (Hr & Hg & Hb).
  pose proof (strlen_rgb_text _ _ _ Hr Hg Hb) as Hlen.
  pose proof (scnprintf_rgb _ _ _ Hr Hg Hb) as Hp.
  exists (strlen (rgb_text (r x) (g x) (b x)) + 1).
  eexists. split; [| split; [reflexivity |]].
  - unfold mdss_livedisplay_get_rgb, bind, get_ctx, load, ret.
    cbv beta iota delta [is_null].
    repeat (rewrite Hx; cbv beta iota). rewrite Hp. reflexivity.
  - split; [| split; [lia |]].
    + unfold strlen. rewrite string_app_length. simpl String.length. lia.
    + rewrite <- rgb_text_newline by assumption.
      apply sscanf_triple; (assumption || reflexivity).
Qed.

(** X8.  Only worker runs talk to the pipeline, and each submits at most
    one command: from a reachable state, an operation that returns either
    leaves the list of submitted commands as it was, or it is a worker run
    and appends one command, built from the stored triple, whose diagonal
    coefficients lie in [0, 32768]. *)
Theorem reachable_step_commands (o : op) (w w' : world) :
  reachable w ->
  step o w = Returns tt w' ->
  pcc_calls w' = pcc_calls w \/
  (o = op_worker /\
   exists x,
     livedisplay w = Some x /\
     pcc_calls w' = pcc_calls w ++ [pcc_command (index w) x] /\
     0 <= mdp_pcc_coeff.r (mdp_pcc_cfg_data.r (pcc_command (index w) x)) <= 32768 /\
     0 <= mdp_pcc_coeff.g (mdp_pcc_cfg_data.g (pcc_command (index w) x)) <= 32768 /\
     0 <= mdp_pcc_coeff.b (mdp_pcc_cfg_data.b (pcc_command (index w) x)) <= 32768).
Proof.
  intros Hreach H.
  pose proof (reachable_lock_free_aux w Hreach) as Hfree.
  pose proof (reachable_in_range_aux w Hreach) as Hrange.
  revert H.
  destruct o as [rc | buf count | | mask | | c]; unfold step;
    try (after_call w Hfree; left; reflexivity).
  destruct w as [wi wc [[xr xg xb xm xl [xp] xq xu] |] wp wm wk ww].
  2: { run. intros H; injection H as <-. left; reflexivity. }
  pose proof (Hrange _ eq_refl) as (Hr & Hg & Hb). cbv [r g b] in Hr, Hg, Hb.
  clear Hfree Hrange Hreach.
  set (x := mk_ctx xr xg xb xm xl (mk_work xp) xq xu).
  intros H.
  assert (G : pcc_calls w' = wk \/ pcc_calls w' = wk ++ [pcc_command wi x]).
  { revert H. unfold x, pcc_command. run. crunch;
      intros H; try discriminate H; inversion H; subst; clear H;
      first [discriminate | left; reflexivity | right; reflexivity]. }
  destruct G as [G | G]; [left; exact G | right].
  split; [reflexivity |]. exists x.
  split; [reflexivity |]. split; [exact G |].
  unfold x, pcc_command.
  cbv [mdp_pcc_cfg_data.r mdp_pcc_cfg_data.g mdp_pcc_cfg_data.b
       mdp_pcc_coeff.r mdp_pcc_coeff.g mdp_pcc_coeff.b r g b].
  lia.
Qed.

(** X9.  A request followed by the queued run, on an interactive panel:
    the run submits exactly one command, that of the stored triple, when
    the RGB bit is in the pending mask or in the request, and none
    otherwise; either way it leaves the mask empty, the queue empty, the
    mutex free and the triple unchanged. *)
Theorem update_then_run
    (w : world) (x : mdss_livedisplay_ctx) (cp : mdss_dsi_ctrl_pdata) (mask : Z) :
  ready w x ->
  mfd x = PTR ->
  ctrl w = Some cp ->
  mdss_panel_is_power_on_interactive (panel_power_state cp) = true ->
  exists w1 w2 x2,
    mdss_livedisplay_update PTR mask w = Returns tt w1 /\
    process_one_work w1 = Returns true w2 /\
    pcc_calls w2 =
      pcc_calls w ++
      (if Z.land (Z.lor (updated x) mask) MODE_RGB =? 0
       then [] else [pcc_command (index w) x]) /\
    livedisplay w2 = Some x2 /\
    updated x2 = 0 /\ pending (update_work x2) = false /\ lock x2 = false /\
    r x2 = r x /\ g x2 = g x /\ b x2 = b x.
Proof.
  intros Hready Hm Hc Hp.
  pose proof (update_runs w x mask Hready) as E1.
  set (x1 := mk_ctx (r x) (g x) (b x) (mfd x) false (mk_work true) PTR
               (Z.lor (updated x) mask)) in *.
  set (w1 := set_livedisplay w (Some x1)) in *.
  destruct (Z.land (Z.lor (updated x) mask) MODE_RGB =? 0) eqn:Hland.
  - pose proof (process_one_work_skips w1 x1 cp eq_refl eq_refl eq_refl Hm Hc Hp Hland)
      as E2.
    eexists. eexists. eexists. split; [exact E1 |]. split; [exact E2 |].
    split; [symmetry; apply app_nil_r |]. repeat split.
  - destruct (process_one_work_applies w1 x1 cp eq_refl eq_refl eq_refl Hm Hc Hp Hland)
      as (w2 & E2 & K2 & L2).
    eexists. exists w2. eexists. split; [exact E1 |]. split; [exact E2 |].
    split; [exact K2 |]. split; [exact L2 |]. repeat split.
Qed.

(** X10.  Once a run has been spent on a panel that is not interactive, the
    update is stranded: the RGB bit stays in the mask but no run is queued,
    so nothing happens when the panel's state changes; the next request,
    whatever its mask, queues the run that submits the stored triple. *)
Theorem stranded_update_waits_for_request
    (w : world) (x : mdss_livedisplay_ctx) (off on : mdss_dsi_ctrl_pdata) (mask : Z) :
  ready w x ->
  mfd x = PTR ->
  pending (update_work x) = true ->
  (Z.land (updated x) MODE_RGB =? 0) = false ->
  ctrl w = Some off ->
  mdss_panel_is_power_on_interactive (panel_power_state off) = false ->
  mdss_panel_is_power_on_interactive (panel_power_state on) = true ->
  exists w1 x1,
    process_one_work w = Returns true w1 /\
    pcc_calls w1 = pcc_calls w /\
    livedisplay w1 = Some x1 /\
    updated x1 = updated x /\ pending (update_work x1) = false /\
    (forall c, process_one_work (set_ctrl w1 c) = Returns false (set_ctrl w1 c)) /\
    exists w2 w3,
      mdss_livedisplay_update PTR mask (set_ctrl w1 (Some on)) = Returns tt w2 /\
      process_one_work w2 = Returns true w3 /\
      pcc_calls w3 = pcc_calls w ++ [pcc_command (index w) x].
Proof.
  intros (Hx & Hl & Hw) Hm Hq Hland Hc Hoff Hon.
  pose proof (process_one_work_off w x off Hx Hq Hm Hc Hoff) as E1.
  set (x1 := set_update_work x (mk_work false)) in *.
  set (w1 := set_livedisplay w (Some x1)) in *.
  exists w1, x1. split; [exact E1 |].
  split; [reflexivity |]. split; [reflexivity |].
  split; [reflexivity |]. split; [reflexivity |]. split.
  - intros c. apply (process_one_work_idle _ x1); reflexivity.
  - assert (R1 : ready (set_ctrl w1 (Some on)) x1) by (repeat split; assumption).
    pose proof (update_runs _ x1 mask R1) as E2.
    set (x2 := mk_ctx (r x1) (g x1) (b x1) (mfd x1) false (mk_work true) PTR
                 (Z.lor (updated x1) mask)) in *.
    set (w2 := set_livedisplay (set_ctrl w1 (Some on)) (Some x2)) in *.
    assert (Hland2 : (Z.land (updated x2) MODE_RGB =? 0) = false).
    { unfold x2, x1. cbv [updated set_update_work]. fold (updated x).
      apply Z.eqb_neq. intros Hz. apply Z.eqb_neq in Hland. apply Hland.
      apply Z.bits_inj'. intros k Hk.
      apply (f_equal (fun z => Z.testbit z k)) in Hz.
      rewrite Z.land_spec, Z.lor_spec, Z.bits_0 in Hz.
      rewrite Z.land_spec, Z.bits_0.
      destruct (Z.testbit (updated x) k), (Z.testbit MODE_RGB k);
        try reflexivity; discriminate Hz. }
    destruct (process_one_work_applies w2 x2 on eq_refl eq_refl eq_refl Hm eq_refl Hon
                Hland2) as (w3 & E3 & K3 & _).
    exists w2, w3. split; [exact E2 |]. split; [exact E3 |].
    rewrite K3. destruct x; reflexivity.
Qed.

(** A write whose first converted value exceeds 32768 is rejected before
    anything is touched. *)
Lemma set_rgb_red_too_big (w : world) (buf : string) (count n vr vg vb : Z) :
  sscanf_d_d_d buf 0 0 0 = (n, (vr, vg, vb)) ->
  32768 < vr ->
  mdss_livedisplay_set_rgb PTR buf count w = Returns (- EINVAL) w.
Proof.
  intros Hs Hr.
  unfold mdss_livedisplay_set_rgb. cbv beta iota delta [is_null].
  destruct (count >? 19); [reflexivity |].
  rewrite Hs. unfold bind at 1, get_ctx at 1.
  rewrite range_check_fails by exact Hr. reflexivity.
Qed.

Lemma wrap32_negative (v : Z) : 0 < v < 2 ^ 32 -> wrap32 (- v) = 2 ^ 32 - v.
Proof.
  intros H. unfold wrap32.
  rewrite <- (Z_mod_plus_full (- v) 1 (2 ^ 32)).
  replace (- v + 1 * 2 ^ 32) with (2 ^ 32 - v) by lia.
  apply Z.mod_small. lia.
Qed.

Lemma isdigit_peek_c_string (tail : string) :
  isdigit (peek (c_string tail)) = isdigit (peek tail).
Proof.
  destruct tail as [| ch rest]; [reflexivity |].
  simpl. destruct (nat_of_ascii ch =? 0)%nat eqn:E; [| reflexivity].
  apply Nat.eqb_eq in E. unfold isdigit. simpl peek. rewrite E. reflexivity.
Qed.

(** A minus sign and the digits of [v]: one conversion gives [-v] as a
    32-bit value. *)
Lemma scan_d_minus (v : Z) (tail : string) :
  1 <= v <= 2 ^ 31 -> isdigit (peek tail) = false ->
  scan_d (String "-" (put_dec 10 v tail)) = Some (2 ^ 32 - v, tail).
Proof.
  intros Hv Ht.
  destruct (put_dec_head 9 v tail) as (ch & rest & E & Hd & Hs & Hm).
  assert (Hp : parse_integer 0 (put_dec 10 v tail) = (v, tail)).
  { rewrite parse_put_dec by (simpl; lia).
    destruct tail as [| t tail']; [reflexivity |].
    simpl in Ht. simpl. rewrite Ht. reflexivity. }
  unfold scan_d. change (skip_spaces (String "-" (put_dec 10 v tail)))
    with (String "-" (put_dec 10 v tail)).
  unfold simple_strtol, simple_strtoul.
  change (peek (String "-" (put_dec 10 v tail))) with "-"%char.
  change (advance (String "-" (put_dec 10 v tail))) with (put_dec 10 v tail).
  change ("-" =? "-")%char with true. cbv iota.
  rewrite Hp. rewrite E. simpl peek. rewrite Hd.
  rewrite wrap32_negative by lia. reflexivity.
Qed.

Lemma sscanf_minus (v : Z) (tail : string) :
  1 <= v <= 2 ^ 31 -> isdigit (peek tail) = false ->
  exists n vg vb,
    sscanf_d_d_d (String "-" (put_dec 10 v tail)) 0 0 0 = (n, (2 ^ 32 - v, vg, vb)).
Proof.
  intros Hv Ht. unfold sscanf_d_d_d.
  assert (E : c_string (String "-" (put_dec 10 v tail)) =
              String "-" (put_dec 10 v (c_string tail))).
  { rewrite <- c_string_put_dec. reflexivity. }
  rewrite E.
  rewrite scan_d_minus by (rewrite ?isdigit_peek_c_string; assumption).
  destruct (scan_d (c_string tail)) as [[v2 s2] |];
    [destruct (scan_d s2) as [[v3 s3] |] |]; eauto.
Qed.

(** X11.  A negative red is always rejected, though the test [r < 0] can
    never fire on the unsigned variable: a text that starts with a minus
    sign and the digits of [v], for [1 <= v <= 2^31], is converted to
    [2^32 - v], which fails the upper bound.  The call returns [-EINVAL]
    and changes nothing, whatever follows the number and whatever [count]
    is. *)
Theorem set_rgb_rejects_negative_red
    (w : world) (v : Z) (tail : string) (count : Z) :
  1 <= v <= 2 ^ 31 ->
  isdigit (peek tail) = false ->
  mdss_livedisplay_set_rgb PTR (String "-" (put_dec 10 v tail)) count w =
  Returns (- EINVAL) w.
Proof.
  intros Hv Ht.
  destruct (sscanf_minus v tail Hv Ht) as (n & vg & vb & Hs).
  apply (set_rgb_red_too_big w _ count n (2 ^ 32 - v) vg vb Hs).
  assert (H31 : 2 ^ 31 = 2147483648) by reflexivity.
  assert (H32 : 2 ^ 32 = 4294967296) by reflexivity.
  lia.
Qed.

(** X12.  Initialization, registration, one request for [MODE_RGB] and the
    queued run, on an interactive panel: until user space writes values,
    the one command submitted asks the pipeline to disable correction
    (DISABLE | WRITE), with 32768 on the diagonal. *)
Theorem default_request_disables_correction
    (w0 : world) (cp : mdss_dsi_ctrl_pdata) :
  ctrl w0 = Some cp ->
  mdss_panel_is_power_on_interactive (panel_power_state cp) = true ->
  MODE_RGB <> 0 ->
  exists w1 w2 w3 w4 cmd,
    mdss_livedisplay_parse_dt PTR PTR PTR w0 = Returns 0 w1 /\
    mdss_livedisplay_create_sysfs PTR 0 w1 = Returns 0 w2 /\
    mdss_livedisplay_update PTR MODE_RGB w2 = Returns tt w3 /\
    process_one_work w3 = Returns true w4 /\
    pcc_calls w4 = pcc_calls w0 ++ [cmd] /\
    mdp_pcc_cfg_data.ops cmd = Z.lor MDP_PP_OPS_DISABLE MDP_PP_OPS_WRITE /\
    mdp_pcc_coeff.r (mdp_pcc_cfg_data.r cmd) = 32768 /\
    mdp_pcc_coeff.g (mdp_pcc_cfg_data.g cmd) = 32768 /\
    mdp_pcc_coeff.b (mdp_pcc_cfg_data.b cmd) = 32768.
Proof.
  intros Hc Hp Hmode.
  set (x2 := mk_ctx 32768 32768 32768 PTR false (mk_work false) PTR 0).
  set (x3 := mk_ctx 32768 32768 32768 PTR false (mk_work true) PTR (Z.lor 0 MODE_RGB)).
  assert (Hland : (Z.land (updated x3) MODE_RGB =? 0) = false).
  { unfold x3. cbv [updated]. rewrite land_lor_same. apply Z.eqb_neq. exact Hmode. }
  destruct (process_one_work_applies (set_livedisplay w0 (Some x3)) x3 cp
              eq_refl eq_refl eq_refl eq_refl Hc Hp Hland) as (w4 & E4 & K4 & _).
  exists (set_livedisplay w0
            (Some (mk_ctx 32768 32768 32768 NULL false (mk_work false) PTR 0))).
  exists (set_livedisplay w0 (Some x2)), (set_livedisplay w0 (Some x3)), w4.
  exists (pcc_command (index w0) x3).
  split; [reflexivity |]. split; [reflexivity |].
  split; [exact (update_runs (set_livedisplay w0 (Some x2)) x2 MODE_RGB
                   (conj eq_refl (conj eq_refl eq_refl))) |].
  split; [exact E4 |]. split; [exact K4 |]. repeat split.
Qed.

(** X13.  When registration fails, its error code is returned and the
    context keeps no owner; the hardware programmer called on such a
    context does not return: it reads the index through the NULL owner. *)
Theorem unregistered_context_has_no_owner (w0 : world) (q : pointer) (rc : Z) :
  rc <> 0 ->
  exists w1 x1,
    mdss_livedisplay_parse_dt PTR PTR q w0 = Returns 0 w1 /\
    mdss_livedisplay_create_sysfs PTR rc w1 = Returns rc w1 /\
    livedisplay w1 = Some x1 /\ mfd x1 = NULL /\
    mdss_livedisplay_update_pcc PTR w1 = Oops.
Proof.
  intros Hrc. eexists. eexists. split; [reflexivity |].
  apply Z.eqb_neq in Hrc.
  split; [| split; [reflexivity | split; [reflexivity |]]].
  - run. rewrite Hrc. reflexivity.
  - destruct w0; reflexivity.
Qed.

End Coverage.

(** ** The further properties at concrete inputs *)

#[local] Existing Instance msm8974.

(** The sample panel after initialization, registration and one write. *)
Lemma queued_reachable : @reachable msm8974 (panel_with 1 [] queued).
Proof.
  apply (@reachable_step msm8974 (panel_with 1 [] default_ctx) _
           (op_set_rgb "25828 17347 8192" 16)).
  - apply (@reachable_step msm8974
             (panel_with 1 []
                (mk_ctx 32768 32768 32768 NULL false (mk_work false) PTR 0)) _
             (op_create_sysfs 0)).
    + apply (@reachable_init msm8974 (fresh 1 []) _ PTR PTR). reflexivity.
    + reflexivity.
  - vm_compute; reflexivity.
Defined.

Lemma worker_run_never_warns_witness :
  exists w' x',
    mdss_livedisplay_worker (panel_with 1 [-14] queued) = Returns tt w' /\
    warnings w' = warnings (panel_with 1 [-14] queued) /\
    livedisplay w' = Some x' /\ lock x' = false /\
    r x' = r queued /\ g x' = g queued /\ b x' = b queued.
Proof.
  exact (@worker_run_never_warns msm8974 (panel_with 1 [-14] queued) queued
           eq_refl eq_refl eq_refl).
Defined.

Lemma update_pcc_lock_assertion_witness :
  exists rc w',
    mdss_livedisplay_update_pcc PTR (panel_with 1 [] queued) = Returns rc w' /\
    warnings w' =
      (if lock queued then warnings (panel_with 1 [] queued)
       else S (warnings (panel_with 1 [] queued))) /\
    pcc_calls w' =
      pcc_calls (panel_with 1 [] queued) ++
      [pcc_command (index (panel_with 1 [] queued)) queued] /\
    livedisplay w' = Some queued.
Proof.
  exact (@update_pcc_lock_assertion msm8974 (panel_with 1 [] queued) queued
           eq_refl eq_refl).
Defined.

Lemma update_requests_merge_witness :
  exists x',
    bind (mdss_livedisplay_update PTR 1)
         (fun _ => mdss_livedisplay_update PTR 32) (panel_with 1 [] warm) =
      Returns tt (set_livedisplay (panel_with 1 [] warm) (Some x')) /\
    mdss_livedisplay_update PTR (Z.lor 1 32) (panel_with 1 [] warm) =
      Returns tt (set_livedisplay (panel_with 1 [] warm) (Some x')) /\
    ready (set_livedisplay (panel_with 1 [] warm) (Some x')) x' /\
    updated x' = Z.lor (updated warm) (Z.lor 1 32) /\
    pending (update_work x') = true /\
    r x' = r warm /\ g x' = g warm /\ b x' = b warm /\ mfd x' = mfd warm.
Proof.
  exact (@update_requests_merge msm8974 (panel_with 1 [] warm) warm 1 32
           (conj eq_refl (conj eq_refl eq_refl))).
Defined.

Lemma set_rgb_last_write_wins_witness :
  exists w',
    mdss_livedisplay_set_rgb PTR "4 5 6" 5 (panel_with 1 [] warm) = Returns 5 w' /\
    bind (mdss_livedisplay_set_rgb PTR "1 2 3" 5)
         (fun _ => mdss_livedisplay_set_rgb PTR "4 5 6" 5) (panel_with 1 [] warm) =
      Returns 5 w'.
Proof.
  apply (@set_rgb_last_write_wins msm8974 (panel_with 1 [] warm) warm).
  - repeat split.
  - vm_compute; reflexivity.
  - vm_compute; reflexivity.
Defined.

Lemma reachable_mutex_free_witness : lock queued = false.
Proof.
  exact (@reachable_mutex_free msm8974 (panel_with 1 [] queued) queued
           queued_reachable eq_refl).
Defined.

Lemma reachable_step_no_warning_witness :
  warnings
    (@mk_world msm8974 0 (Some (mk_ctrl 1))
       (Some (mk_ctx 25828 17347 8192 PTR false (mk_work false) PTR 0))
       (pcc_command 0 queued) [] [pcc_command 0 queued] 0%nat) =
  warnings (panel_with 1 [] queued).
Proof.
  apply (@reachable_step_no_warning msm8974 op_worker).
  - exact queued_reachable.
  - vm_compute; reflexivity.
Defined.

Lemma reachable_get_rgb_witness :
  exists len text,
    mdss_livedisplay_get_rgb PTR (panel_with 1 [] queued) =
      Returns (len, text) (panel_with 1 [] queued) /\
    text = (rgb_text (r queued) (g queued) (b queued) ++
            String (ascii_of_nat 10) EmptyString)%string /\
    len = strlen text /\ 0 < len <= 18 /\
    sscanf_d_d_d text 0 0 0 = (3, (r queued, g queued, b queued)).
Proof.
  exact (@reachable_get_rgb msm8974 (panel_with 1 [] queued) queued
           queued_reachable eq_refl).
Defined.

Lemma reachable_step_commands_witness :
  pcc_calls
    (@mk_world msm8974 0 (Some (mk_ctrl 1))
       (Some (mk_ctx 25828 17347 8192 PTR false (mk_work false) PTR 0))
       (pcc_command 0 queued) [] [pcc_command 0 queued] 0%nat) =
    pcc_calls (panel_with 1 [] queued) \/
  (op_worker = op_worker /\
   exists x,
     livedisplay (panel_with 1 [] queued) = Some x /\
     pcc_calls
       (@mk_world msm8974 0 (Some (mk_ctrl 1))
          (Some (mk_ctx 25828 17347 8192 PTR false (mk_work false) PTR 0))
          (pcc_command 0 queued) [] [pcc_command 0 queued] 0%nat) =
       pcc_calls (panel_with 1 [] queued) ++
       [pcc_command (index (panel_with 1 [] queued)) x] /\
     0 <= mdp_pcc_coeff.r
            (mdp_pcc_cfg_data.r (pcc_command (index (panel_with 1 [] queued)) x))
       <= 32768 /\
     0 <= mdp_pcc_coeff.g
            (mdp_pcc_cfg_data.g (pcc_command (index (panel_with 1 [] queued)) x))
       <= 32768 /\
     0 <= mdp_pcc_coeff.b
            (mdp_pcc_cfg_data.b (pcc_command (index (panel_with 1 [] queued)) x))
       <= 32768).
Proof.
  apply (@reachable_step_commands msm8974 op_worker).
  - exact queued_reachable.
  - vm_compute; reflexivity.
Defined.

Lemma update_then_run_witness :
  exists w1 w2 x2,
    mdss_livedisplay_update PTR 32 (panel_with 1 [] warm) = Returns tt w1 /\
    process_one_work w1 = Returns true w2 /\
    pcc_calls w2 =
      pcc_calls (panel_with 1 [] warm) ++
      (if Z.land (Z.lor (updated warm) 32) 32 =? 0
       then [] else [pcc_command (index (panel_with 1 [] warm)) warm]) /\
    livedisplay w2 = Some x2 /\
    updated x2 = 0 /\ pending (update_work x2) = false /\ lock x2 = false /\
    r x2 = r warm /\ g x2 = g warm /\ b x2 = b warm.
Proof.
  exact (@update_then_run msm8974 (panel_with 1 [] warm) warm (mk_ctrl 1) 32
           (conj eq_refl (conj eq_refl eq_refl)) eq_refl eq_refl eq_refl).
Defined.

Lemma stranded_update_waits_for_request_witness :
  exists w1 x1,
    process_one_work (panel_with 0 [] queued) = Returns true w1 /\
    pcc_calls w1 = pcc_calls (panel_with 0 [] queued) /\
    livedisplay w1 = Some x1 /\
    updated x1 = updated queued /\ pending (update_work x1) = false /\
    (forall c, process_one_work (set_ctrl w1 c) = Returns false (set_ctrl w1 c)) /\
    exists w2 w3,
      mdss_livedisplay_update PTR 0 (set_ctrl w1 (Some (mk_ctrl 1))) = Returns tt w2 /\
      process_one_work w2 = Returns true w3 /\
      pcc_calls w3 =
        pcc_calls (panel_with 0 [] queued) ++
        [pcc_command (index (panel_with 0 [] queued)) queued].
Proof.
  exact (@stranded_update_waits_for_request msm8974 (panel_with 0 [] queued) queued
           (mk_ctrl 0) (mk_ctrl 1) 0
           (conj eq_refl (conj eq_refl eq_refl))
           eq_refl eq_refl eq_refl eq_refl eq_refl eq_refl).
Defined.

(** The text ["-7 1 2"]. *)
Lemma set_rgb_rejects_negative_red_witness :
  mdss_livedisplay_set_rgb PTR (String "-" (put_dec 10 7 " 1 2")) 6
    (panel_with 1 [] warm) =
  Returns (- EINVAL) (panel_with 1 [] warm).
Proof.
  apply (@set_rgb_rejects_negative_red msm8974).
  - split; [lia | discriminate].
  - reflexivity.
Defined.

Lemma default_request_disables_correction_witness :
  exists w1 w2 w3 w4 cmd,
    mdss_livedisplay_parse_dt PTR PTR PTR (fresh 1 []) = Returns 0 w1 /\
    mdss_livedisplay_create_sysfs PTR 0 w1 = Returns 0 w2 /\
    mdss_livedisplay_update PTR 32 w2 = Returns tt w3 /\
    process_one_work w3 = Returns true w4 /\
    pcc_calls w4 = pcc_calls (fresh 1 []) ++ [cmd] /\
    mdp_pcc_cfg_data.ops cmd = Z.lor 8 4 /\
    mdp_pcc_coeff.r (mdp_pcc_cfg_data.r cmd) = 32768 /\
    mdp_pcc_coeff.g (mdp_pcc_cfg_data.g cmd) = 32768 /\
    mdp_pcc_coeff.b (mdp_pcc_cfg_data.b cmd) = 32768.
Proof.
  apply (@default_request_disables_correction msm8974 (fresh 1 []) (mk_ctrl 1)).
  - reflexivity.
  - reflexivity.
  - discriminate.
Defined.

Lemma unregistered_context_has_no_owner_witness :
  exists w1 x1,
    mdss_livedisplay_parse_dt PTR PTR PTR (fresh 1 []) = Returns 0 w1 /\
    mdss_livedisplay_create_sysfs PTR (-12) w1 = Returns (-12) w1 /\
    livedisplay w1 = Some x1 /\ mfd x1 = NULL /\
    mdss_livedisplay_update_pcc PTR w1 = Oops.
Proof.
  apply (@unregistered_context_has_no_owner msm8974 (fresh 1 []) PTR (-12)).
  discriminate.
Defined.
